(** * Music-therapy ML pipeline ([pipeline/pipeline.py]): a shallow embedding

    The pipeline is a Python module whose step functions read and write
    files, log, read the clock, import optional libraries and talk to an
    experiment tracker.  The embedding threads one explicit [World] (file
    system, logger output, clock, tracking server, trace of library calls)
    through a small state-and-exception monad [M]; every Python exception
    is a value [Raise e].

    What lives outside the repository (scikit-learn's estimators and
    splitters, pandas' median fill, the text of a timestamp) is taken as a
    record of functions [Libs]; the step functions are written over an arbitrary [L : Libs]. *)

From Stdlib Require Import ZArith String List Floats DecimalString Lia Bool.
From stdpp Require Import gmap strings list.

Set Warnings "-register-all,-inexact-float".

Open Scope string_scope.
Open Scope Z_scope.
Open Scope list_scope.

(* ===================================================================== *)
(** ** Strings as Python uses them *)
(* ===================================================================== *)

(** [str(n)] for an integer. *)
Definition str_of_Z (z : Z) : string := NilZero.string_of_int (Z.to_int z).

Fixpoint startswith (p s : string) : bool :=
  match p, s with
  | EmptyString, _ => true
  | String a p', String b s' => if Ascii.eqb a b then startswith p' s' else false
  | String _ _, EmptyString => false
  end.

(** [sub in s]: substring test. *)
Fixpoint contains (sub s : string) : bool :=
  startswith sub s ||
  match s with
  | EmptyString => false
  | String _ s' => contains sub s'
  end.

Fixpoint string_rev_onto (s acc : string) : string :=
  match s with
  | EmptyString => acc
  | String a s' => string_rev_onto s' (String a acc)
  end.

Definition endswith (suffix s : string) : bool :=
  startswith (string_rev_onto suffix "") (string_rev_onto s "").

(** [", ".join(xs)]. *)
Fixpoint join (sep : string) (xs : list string) : string :=
  match xs with
  | [] => ""
  | [x] => x
  | x :: rest => x +:+ sep +:+ join sep rest
  end.

(* ===================================================================== *)
(** ** Exceptions *)
(* ===================================================================== *)

(** The exception classes the module can meet.  [KeyboardInterrupt] and
    [SystemExit] derive from [BaseException] only; all the others derive
    from [Exception]. *)
Inductive ExcClass :=
| ImportError | NameError | ValueError | KeyError | IndexError | TypeError
| AttributeError | FileNotFoundError | FileExistsError | NotADirectoryError
| IsADirectoryError | OSError | ParserError | UnpicklingError | NotFittedError
| ZeroDivisionError
| MlflowException
| KeyboardInterrupt | SystemExit.

(** An exception object: its class, [str(e)], and the call that raised it
    (the innermost frame of its traceback). *)
Record Exn := mkExn { exc_class : ExcClass; exc_str : string; exc_site : string }.

Definition is_Exception (e : Exn) : bool :=
  match exc_class e with
  | KeyboardInterrupt | SystemExit => false
  | _ => true
  end.

Inductive Outcome (A : Type) :=
| Return (a : A)
| Raise (e : Exn).
Arguments Return {A} a.
Arguments Raise {A} e.

(* ===================================================================== *)
(** ** Tables, matrices, JSON *)
(* ===================================================================== *)

(** A cell of a DataFrame.  [CNull] is [None]/[NaN] in an object column; a
    float NaN is null as well. *)
Inductive Cell :=
| CFloat (f : float)
| CInt (z : Z)
| CStr (s : string)
| CNull.

Definition cell_isnull (c : Cell) : bool :=
  match c with
  | CNull => true
  | CFloat f => PrimFloat.is_nan f
  | _ => false
  end.

(** Equality as [DataFrame.duplicated] sees it: nulls compare equal. *)
Definition cell_eqb (a b : Cell) : bool :=
  match a, b with
  | CFloat x, CFloat y => PrimFloat.eqb x y || (PrimFloat.is_nan x && PrimFloat.is_nan y)
  | CInt x, CInt y => Z.eqb x y
  | CStr x, CStr y => String.eqb x y
  | CNull, CNull => true
  | CNull, CFloat y => PrimFloat.is_nan y
  | CFloat x, CNull => PrimFloat.is_nan x
  | _, _ => false
  end.

Fixpoint row_eqb (r1 r2 : list Cell) : bool :=
  match r1, r2 with
  | [], [] => true
  | a :: r1', b :: r2' => cell_eqb a b && row_eqb r1' r2'
  | _, _ => false
  end.

(** A DataFrame with the default integer index: column labels and rows. *)
Record DataFrame := mkDF { df_columns : list string; df_rows : list (list Cell) }.

(** A two-dimensional float array; the column count is kept beside the
    rows so that an array without rows still has a shape. *)
Record Matrix := mkMatrix { m_ncols : Z; m_rows : list (list float) }.

Inductive Json :=
| JNull
| JBool (b : bool)
| JInt (z : Z)
| JFloat (f : float)
| JStr (s : string)
| JList (l : list Json)
| JObj (kv : list (string * Json)).

(** ** Operations of pandas and numpy that the steps use *)

Definition len_df (df : DataFrame) : Z := Z.of_nat (length (df_rows df)).
Definition len_columns (df : DataFrame) : Z := Z.of_nat (length (df_columns df)).

Fixpoint index_of (name : string) (cols : list string) : option nat :=
  match cols with
  | [] => None
  | c :: rest =>
      if String.eqb c name then Some O
      else match index_of name rest with Some i => Some (S i) | None => None end
  end.

Definition has_column (df : DataFrame) (name : string) : bool :=
  match index_of name (df_columns df) with Some _ => true | None => false end.

(** [pd.DataFrame(X, columns=names)]. *)
Definition DataFrame_of (X : Matrix) (names : list string) : Outcome DataFrame :=
  if m_ncols X =? Z.of_nat (length names) then
    Return (mkDF names (map (map CFloat) (m_rows X)))
  else
    Raise (mkExn ValueError
             ("Shape of passed values is (" +:+ str_of_Z (Z.of_nat (length (m_rows X)))
              +:+ ", " +:+ str_of_Z (m_ncols X) +:+ "), indices imply ("
              +:+ str_of_Z (Z.of_nat (length (m_rows X))) +:+ ", "
              +:+ str_of_Z (Z.of_nat (length names)) +:+ ")")
             "pd.DataFrame").

(** Put [v] at position [i] of a row, or at its end when [i] is the
    row's length. *)
Definition row_put (i : nat) (v : Cell) (row : list Cell) : list Cell :=
  if (i <? length row)%nat then <[i := v]> row else row ++ [v].

Fixpoint rows_put (i : nat) (values : list Cell) (rows : list (list Cell)) : list (list Cell) :=
  match values, rows with
  | v :: values', r :: rows' => row_put i v r :: rows_put i values' rows'
  | _, _ => []
  end.

(** [df[name] = values] for a list, an array or a Series of values. *)
Definition set_column (df : DataFrame) (name : string) (values : list Cell) : Outcome DataFrame :=
  if negb (length values =? length (df_rows df))%nat then
    Raise (mkExn ValueError
             ("Length of values (" +:+ str_of_Z (Z.of_nat (length values))
              +:+ ") does not match length of index (" +:+ str_of_Z (len_df df) +:+ ")")
             "DataFrame.__setitem__")
  else
    match index_of name (df_columns df) with
    | Some i => Return (mkDF (df_columns df) (rows_put i values (df_rows df)))
    | None =>
        Return (mkDF (df_columns df ++ [name])
                  (rows_put (length (df_columns df)) values (df_rows df)))
    end.

(** [df[name] = scalar]. *)
Definition set_column_scalar (df : DataFrame) (name : string) (v : Cell) : DataFrame :=
  let values := map (fun _ => v) (df_rows df) in
  match index_of name (df_columns df) with
  | Some i => mkDF (df_columns df) (rows_put i values (df_rows df))
  | None => mkDF (df_columns df ++ [name]) (rows_put (length (df_columns df)) values (df_rows df))
  end.

(** [df[name]]. *)
Definition get_column (df : DataFrame) (name : string) : Outcome (list Cell) :=
  match index_of name (df_columns df) with
  | Some i => Return (map (fun r => nth i r CNull) (df_rows df))
  | None => Raise (mkExn KeyError ("'" +:+ name +:+ "'") "DataFrame.__getitem__")
  end.

(** [df.iloc[:, i]] for [0 <= i]. *)
Definition iloc_column (df : DataFrame) (i : Z) : Outcome (list Cell) :=
  if (0 <=? i) && (i <? len_columns df) then
    Return (map (fun r => nth (Z.to_nat i) r CNull) (df_rows df))
  else
    Raise (mkExn IndexError "single positional indexer is out-of-bounds" "DataFrame.iloc").

Fixpoint remove_nth {A} (i : nat) (l : list A) : list A :=
  match i, l with
  | _, [] => []
  | O, _ :: l' => l'
  | S i', x :: l' => x :: remove_nth i' l'
  end.

(** [df.drop(name, axis=1)]. *)
Definition drop_column (df : DataFrame) (name : string) : Outcome DataFrame :=
  match index_of name (df_columns df) with
  | Some i => Return (mkDF (remove_nth i (df_columns df)) (map (remove_nth i) (df_rows df)))
  | None => Raise (mkExn KeyError ("['" +:+ name +:+ "'] not found in axis") "DataFrame.drop")
  end.

(** [df[names].copy()] for labels taken from [df.columns]. *)
Definition select_columns (df : DataFrame) (names : list string) : DataFrame :=
  mkDF names
    (map (fun r =>
            map (fun name =>
                   match index_of name (df_columns df) with
                   | Some i => nth i r CNull
                   | None => CNull
                   end) names)
       (df_rows df)).

(** [df.isnull().sum().sum()]. *)
Definition count_missing (df : DataFrame) : Z :=
  Z.of_nat (length (List.filter cell_isnull (concat (df_rows df)))).

(** [df.duplicated()]: a row is marked when an earlier row equals it. *)
Fixpoint duplicated (seen rows : list (list Cell)) : list bool :=
  match rows with
  | [] => []
  | r :: rest => existsb (row_eqb r) seen :: duplicated (r :: seen) rest
  end.

(** [df.duplicated().sum()]. *)
Definition count_duplicates (df : DataFrame) : Z :=
  Z.of_nat (length (List.filter (fun b : bool => b) (duplicated [] (df_rows df)))).

(** [X[:, i]] for [0 <= i]. *)
Definition array_column (X : Matrix) (i : Z) : Outcome (list float) :=
  if (0 <=? i) && (i <? m_ncols X) then
    Return (map (fun r => nth (Z.to_nat i) r 0%float) (m_rows X))
  else
    Raise (mkExn IndexError
             ("index " +:+ str_of_Z i +:+ " is out of bounds for axis 1 with size "
              +:+ str_of_Z (m_ncols X))
             "ndarray.__getitem__").

Definition float_min (a b : float) : float :=
  if PrimFloat.is_nan a || PrimFloat.is_nan b then PrimFloat.nan
  else if PrimFloat.ltb b a then b else a.

Definition float_max (a b : float) : float :=
  if PrimFloat.is_nan a || PrimFloat.is_nan b then PrimFloat.nan
  else if PrimFloat.ltb a b then b else a.

(** [col.min()] and [col.max()]. *)
Definition array_min (col : list float) : Outcome float :=
  match col with
  | [] => Raise (mkExn ValueError
                   "zero-size array to reduction operation minimum which has no identity"
                   "ndarray.min")
  | x :: rest => Return (fold_left float_min rest x)
  end.

Definition array_max (col : list float) : Outcome float :=
  match col with
  | [] => Raise (mkExn ValueError
                   "zero-size array to reduction operation maximum which has no identity"
                   "ndarray.max")
  | x :: rest => Return (fold_left float_max rest x)
  end.

Fixpoint array_put (i : nat) (values : list float) (rows : list (list float)) : list (list float) :=
  match values, rows with
  | v :: values', r :: rows' => <[i := v]> r :: array_put i values' rows'
  | _, _ => []
  end.

(** [X[:, i] = values]. *)
Definition array_set_column (X : Matrix) (i : Z) (values : list float) : Matrix :=
  mkMatrix (m_ncols X) (array_put (Z.to_nat i) values (m_rows X)).

Definition float_of_Z (z : Z) : float :=
  if z <? 0 then (- PrimFloat.of_uint63 (Uint63.of_Z (- z)))%float
  else PrimFloat.of_uint63 (Uint63.of_Z z).

(** A cell as an operand of Series arithmetic. *)
Definition cell_float (c : Cell) : Outcome float :=
  match c with
  | CFloat f => Return f
  | CInt z => Return (float_of_Z z)
  | CNull => Return PrimFloat.nan
  | CStr _ => Raise (mkExn TypeError "unsupported operand type(s)" "Series arithmetic")
  end.

(** [a <op> b] on two Series of one frame. *)
Fixpoint series_op (op : float -> float -> float) (a b : list Cell) : Outcome (list Cell) :=
  match a, b with
  | x :: a', y :: b' =>
      match cell_float x, cell_float y, series_op op a' b' with
      | Return fx, Return fy, Return rest => Return (CFloat (op fx fy) :: rest)
      | Raise e, _, _ => Raise e
      | _, Raise e, _ => Raise e
      | _, _, Raise e => Raise e
      end
  | _, _ => Return []
  end.

(** [a <op> k] for a Series and a number. *)
Definition series_scalar_op (op : float -> float -> float) (a : list Cell) (k : float)
  : Outcome (list Cell) :=
  series_op op a (map (fun _ => CFloat k) a).

(* ===================================================================== *)
(** ** Paths and the file system *)
(* ===================================================================== *)

Definition slash : Ascii.ascii := Ascii.ascii_of_nat 47.

(** Split on ["/"]; [cur] is the component being read, reversed. *)
Fixpoint split_slash (s : string) (cur : string) : list string :=
  match s with
  | EmptyString => [string_rev_onto cur ""]
  | String a s' =>
      if Ascii.eqb a slash then string_rev_onto cur "" :: split_slash s' ""
      else split_slash s' (String a cur)
  end.

Definition real_component (c : string) : bool :=
  negb (String.eqb c "" || String.eqb c ".").

(** [Path(s).parts]: empty and ["."] components vanish, an absolute path
    starts with the component ["/"]. *)
Definition parts (s : string) : list string :=
  let comps := List.filter real_component (split_slash s "") in
  if startswith "/" s then "/" :: comps else comps.

(** [Path(...).parent] on parts: the last component goes, the anchor and
    the empty path stay. *)
Definition parent (p : list string) : list string :=
  match p with
  | [] => []
  | ["/"] => ["/"]
  | _ => removelast p
  end.

(* ===================================================================== *)
(** ** Optional libraries, the registry, configuration *)
(* ===================================================================== *)

Inductive PyModule := mlflow | sklearn | pandas | numpy | kfp.

Definition module_name (m : PyModule) : string :=
  match m with
  | mlflow => "mlflow" | sklearn => "sklearn" | pandas => "pandas"
  | numpy => "numpy" | kfp => "kfp"
  end.

(** The interpreter's environment: for each optional library, its
    [__version__] when every name the module imports from it resolves. *)
Definition Env := PyModule -> option string.

Record DepInfo := mkDep { available : bool; version : option string; required : string }.

(** The [DEPENDENCIES] dict; its five keys are fixed. *)
Definition Dependencies := PyModule -> DepInfo.

Definition DEPENDENCIES_initial : Dependencies :=
  fun m =>
    match m with
    | mlflow => mkDep false None "2.5.0+"
    | sklearn => mkDep false None "1.3.0+"
    | pandas => mkDep false None "2.0.0+"
    | numpy => mkDep false None "1.24.0+"
    | kfp => mkDep false None "2.0.0+"
    end.

Definition PyModule_eqb (a b : PyModule) : bool :=
  match a, b with
  | mlflow, mlflow | sklearn, sklearn | pandas, pandas | numpy, numpy | kfp, kfp => true
  | _, _ => false
  end.

(** [DEPENDENCIES[m]['available'] = True; DEPENDENCIES[m]['version'] = v]. *)
Definition mark_available (m : PyModule) (v : string) (d : Dependencies) : Dependencies :=
  fun m' => if PyModule_eqb m m' then mkDep true (Some v) (required (d m')) else d m'.

Definition import_error (m : PyModule) : Exn :=
  mkExn ImportError ("No module named '" +:+ module_name m +:+ "'") ("import " +:+ module_name m).

Record DataConfig := mkDataConfig {
  n_samples : Z;
  n_features : Z;
  n_classes : Z;
  test_size : float;
  validation_size : float;
  random_state : Z
}.

(** [DATA_CONFIG] when no environment variable is set. *)
Definition DATA_CONFIG_default : DataConfig :=
  mkDataConfig 1000 10 3 0.2%float 0.1%float 42.

(** [PIPELINE_CONFIG['version']]. *)
Definition PIPELINE_VERSION : string := "2.0.0".

(* ===================================================================== *)
(** ** The libraries the steps call *)
(* ===================================================================== *)

(** scikit-learn, the numerical part of pandas, and the formatting
    functions of Python's own library, by their call signatures.  A call
    either returns or raises. *)
Record Libs := mkLibs {
  (** fitted state of a [StandardScaler] *)
  ScalerParams : Type;
  (** a fitted [RandomForestClassifier] *)
  Model : Type;
  (** [make_classification(n_samples, n_features, n_informative=8,
      n_redundant=2, n_clusters_per_class=1, n_classes, class_sep=0.8,
      flip_y=0.01, random_state)] *)
  make_classification : Z -> Z -> Z -> Z -> Outcome (Matrix * list Z);
  (** [train_test_split(X, y, test_size, random_state, stratify=y)]:
      [X_a, X_b, y_a, y_b] *)
  train_test_split :
    DataFrame -> list Cell -> float -> Z ->
    Outcome (DataFrame * DataFrame * list Cell * list Cell);
  (** what [fit] computes from its argument *)
  scaler_fit : DataFrame -> Outcome ScalerParams;
  (** what [transform] computes from fitted state and its argument *)
  scaler_apply : ScalerParams -> DataFrame -> Outcome Matrix;
  (** [RandomForestClassifier(n_estimators, max_depth, random_state).fit(X, y)] *)
  model_fit : Z -> Z -> Z -> DataFrame -> list Cell -> Outcome Model;
  model_predict : Model -> DataFrame -> Outcome (list Cell);
  accuracy_score : list Cell -> list Cell -> Outcome float;
  (** [precision_score(y, y_pred, average='weighted')] *)
  precision_score : list Cell -> list Cell -> Outcome float;
  (** [classification_report(y, y_pred, output_dict=True)] *)
  classification_report : list Cell -> list Cell -> Outcome Json;
  (** [X.fillna(X.median())] *)
  fillna_median : DataFrame -> DataFrame;
  (** [datetime.isoformat()] of an instant, given in microseconds *)
  isoformat : Z -> string;
  (** [json.dumps(obj)] *)
  json_dumps : Json -> string;
  (** whether [mlflow.sklearn] resolves on the installed client *)
  mlflow_sklearn_flavor : bool
}.

Section Pipeline.

Variable L : Libs.

(** What [pickle.dump] stored. *)
Inductive Pickled :=
| PScalerData (scaler : ScalerParams L) (feature_names : list string) (metadata : Json)
| PScaler (scaler : ScalerParams L)
| PModel (model : Model L).

(** A file by what it encodes: JSON text, delimited text (gzip or plain)
    of a table, or a pickle. *)
Inductive FileContent :=
| FJson (j : Json)
| FCsv (gzip : bool) (df : DataFrame)
| FPickle (o : Pickled).

Record FS := mkFS {
  fs_dirs : gset (list string);
  fs_files : gmap (list string) FileContent
}.

Definition is_dir (fs : FS) (d : list string) : bool :=
  match d with
  | [] | ["/"] => true
  | _ => bool_decide (d ∈ fs_dirs fs)
  end.

Definition is_file (fs : FS) (p : list string) : bool :=
  match fs_files fs !! p with Some _ => true | None => false end.

(** The non-empty prefixes of a path, shortest first. *)
Fixpoint prefixes_from (pre : list string) (rest : list string) : list (list string) :=
  match rest with
  | [] => []
  | c :: rest' => (pre ++ [c]) :: prefixes_from (pre ++ [c]) rest'
  end.

Definition ancestors_and_self (d : list string) : list (list string) := prefixes_from [] d.

(* ===================================================================== *)
(** ** Logger, tracking server, world *)
(* ===================================================================== *)

Inductive Level := INFO | WARNING | ERROR.

(** A log record's message.  Plain text is kept as the rendered string;
    the two messages that format a float or a traceback keep the value. *)
Inductive LogMsg :=
| Text (s : string)
| Completed (step_name : string) (duration_us : Z)
    (* f"✅ Completed step: {step_name} in {duration:.2f}s" *)
| Traceback (s : string) (e : Exn)
    (* [logger.exception(s)]: [s] followed by the traceback of [e] *)
| TextWith (s : string) (payload : Json).
    (* [s] followed by the rendering of a dict or a float *)

(** A log record as the call to the logger makes it: the level and the
    message.  The handlers print every record behind the time at which it
    was made, the logger's name, the level and the calling function
    (the format string of [logging.basicConfig]); that prefix is the
    logging library's and is not kept, so two records made at different
    times with the same level and message are the same record here. *)
Record LogRecord := mkLog { log_level : Level; log_msg : LogMsg }.

(** Requests the tracking server received. *)
Inductive TrackEvent :=
| TSetExperiment (name : string)
| TStartRun (run_id : string)
| TLogParam (run_id key : string) (value : Z)
| TLogMetric (run_id key : string) (value : float)
| TLogModel (run_id artifact_path registered_name : string)
| TLogArtifact (run_id artifact_path : string)
| TEndRun (run_id : string) (ok : bool).

Record Tracking := mkTracking {
  tr_up : bool;                 (* the server answers *)
  tr_next_run : Z;              (* number of the next run it will create *)
  tr_events : list TrackEvent   (* oldest first *)
}.

(** Calls into scikit-learn that the steps made, oldest first. *)
Inductive LibCall :=
| CallMakeClassification (n_samples n_features n_classes : Z)
| CallTrainTestSplit (n_rows : Z)
| CallScalerFit (X : DataFrame)
| CallScalerTransform (X : DataFrame)
| CallModelFit (X : DataFrame)
| CallModelPredict (X : DataFrame).

Record World := mkWorld {
  w_fs : FS;
  w_log : list LogRecord;       (* oldest first *)
  w_clock : Z;                  (* [datetime.now()], microseconds *)
  w_tracking : Tracking;
  w_calls : list LibCall
}.

(** ** The monad of step code *)

Definition M (A : Type) : Type := World -> Outcome A * World.

Definition ret {A} (a : A) : M A := fun w => (Return a, w).
Definition raise {A} (e : Exn) : M A := fun w => (Raise e, w).
Definition bind {A B} (m : M A) (k : A -> M B) : M B :=
  fun w =>
    match m w with
    | (Return a, w') => k a w'
    | (Raise e, w') => (Raise e, w')
    end.

(** [try: m except <classes>: h]. *)
Definition try_except {A} (m : M A) (catches : Exn -> bool) (h : Exn -> M A) : M A :=
  fun w =>
    match m w with
    | (Return a, w') => (Return a, w')
    | (Raise e, w') => if catches e then h e w' else (Raise e, w')
    end.

Definition lift {A} (o : Outcome A) : M A := fun w => (o, w).


Notation "'let*' x ':=' c1 'in' c2" := (bind c1 (fun x => c2))
  (at level 10, x name, c1 at level 100, c2 at level 200).
Notation "'let*' ' pat ':=' c1 'in' c2" := (bind c1 (fun pat => c2))
  (at level 10, pat pattern, c1 at level 100, c2 at level 200).

(** ** Primitive effects *)

Definition set_fs (fs : FS) (w : World) : World :=
  mkWorld fs (w_log w) (w_clock w) (w_tracking w) (w_calls w).
Definition set_log (l : list LogRecord) (w : World) : World :=
  mkWorld (w_fs w) l (w_clock w) (w_tracking w) (w_calls w).
Definition set_tracking (t : Tracking) (w : World) : World :=
  mkWorld (w_fs w) (w_log w) (w_clock w) t (w_calls w).
Definition set_calls (c : list LibCall) (w : World) : World :=
  mkWorld (w_fs w) (w_log w) (w_clock w) (w_tracking w) c.

(** [logger.info], [logger.warning], [logger.error], [logger.exception]. *)
Definition log (lvl : Level) (m : LogMsg) : M unit :=
  fun w => (Return tt, set_log (w_log w ++ [mkLog lvl m]) w).

(** [datetime.now()]. *)
Definition now : M Z := fun w => (Return (w_clock w), w).

Definition called (c : LibCall) : M unit :=
  fun w => (Return tt, set_calls (w_calls w ++ [c]) w).

(** [Path(path).parent.mkdir(parents=True, exist_ok=True)]: every missing
    ancestor is created; an existing directory is accepted; a regular file
    in the way is an error, of [mkdir] itself or of an ancestor.  Every
    directory is writable: permissions, read-only media and a full disk
    are not modelled. *)
Definition mkdir_parent (path : string) : M unit :=
  fun w =>
    let fs := w_fs w in
    let d := parent (parts path) in
    if is_file fs d then
      (Raise (mkExn FileExistsError "File exists" "Path.mkdir"), w)
    else if existsb (is_file fs) (ancestors_and_self d) then
      (Raise (mkExn NotADirectoryError "Not a directory" "Path.mkdir"), w)
    else
      (Return tt,
       set_fs (mkFS (fs_dirs fs ∪ list_to_set (ancestors_and_self d)) (fs_files fs)) w).

(** [open(path, 'w')] or [to_csv(path)] followed by the write: the file is
    created or replaced.  The directory that holds it must exist.  As for
    [mkdir_parent], permissions are not modelled, nor is a path that the
    operating system refuses for its characters. *)
Definition write_file (site : string) (path : string) (c : FileContent) : M unit :=
  fun w =>
    let fs := w_fs w in
    let p := parts path in
    if String.eqb path "" then
      (Raise (mkExn FileNotFoundError "No such file or directory" site), w)
    else if is_dir fs p || endswith "/" path then
      (Raise (mkExn IsADirectoryError "Is a directory" site), w)
    else if is_file fs (parent p) then
      (Raise (mkExn NotADirectoryError "Not a directory" site), w)
    else if negb (is_dir fs (parent p)) then
      (Raise (mkExn FileNotFoundError "No such file or directory" site), w)
    else
      (Return tt, set_fs (mkFS (fs_dirs fs) (<[p := c]> (fs_files fs))) w).

Definition read_file (site : string) (path : string) : M FileContent :=
  fun w =>
    match fs_files (w_fs w) !! parts path with
    | Some c => (Return c, w)
    | None => (Raise (mkExn FileNotFoundError "No such file or directory" site), w)
    end.

(** [pd.read_csv(path)], with [compression='gzip'] exactly when the path
    ends in [.gz] (which is also what the default [compression='infer']
    chooses). *)
Definition read_csv (path : string) : M DataFrame :=
  let* c := read_file "pd.read_csv" path in
  match c with
  | FCsv gz df =>
      if Bool.eqb gz (endswith ".gz" path) then ret df
      else if gz then raise (mkExn ValueError "invalid start byte" "pd.read_csv")
           else raise (mkExn OSError "Not a gzipped file" "pd.read_csv")
  | _ => raise (mkExn ParserError "Error tokenizing data" "pd.read_csv")
  end.

Definition to_csv (df : DataFrame) (path : string) : M unit :=
  write_file "DataFrame.to_csv" path (FCsv (endswith ".gz" path) df).

(** [with open(path, 'w') as f: json.dump(obj, f)]. *)
Definition json_dump (obj : Json) (path : string) : M unit :=
  write_file "open" path (FJson obj).

(** [with open(path, 'wb') as f: pickle.dump(obj, f)]. *)
Definition pickle_dump (obj : Pickled) (path : string) : M unit :=
  write_file "open" path (FPickle obj).

(** [with open(path, 'rb') as f: pickle.load(f)]. *)
Definition pickle_load (path : string) : M Pickled :=
  let* c := read_file "open" path in
  match c with
  | FPickle o => ret o
  | _ => raise (mkExn UnpicklingError "invalid load key" "pickle.load")
  end.

(** One request to the tracking server: it is recorded, or the client
    raises because the server does not answer. *)
Definition tracking_request (site : string) (ev : TrackEvent) : M unit :=
  fun w =>
    let t := w_tracking w in
    if tr_up t then
      (Return tt, set_tracking (mkTracking true (tr_next_run t) (tr_events t ++ [ev])) w)
    else
      (Raise (mkExn MlflowException "API request failed: connection refused" site), w).

(** [mlflow.start_run()]: the server creates the run and names it. *)
Definition run_id_of (n : Z) : string := "run-" +:+ str_of_Z n.

Definition mlflow_start_run : M string :=
  fun w =>
    let t := w_tracking w in
    let rid := run_id_of (tr_next_run t) in
    if tr_up t then
      (Return rid,
       set_tracking (mkTracking true (tr_next_run t + 1) (tr_events t ++ [TStartRun rid])) w)
    else
      (Raise (mkExn MlflowException "API request failed: connection refused"
                "mlflow.start_run"), w).

(** Leaving [with mlflow.start_run()]: the run is ended, with status
    FINISHED or FAILED; an exception of the body goes on. *)
Definition with_run {A} (body : string -> M A) : M A :=
  let* rid := mlflow_start_run in
  fun w =>
    match body rid w with
    | (Return a, w') => (let* _ := tracking_request "mlflow.end_run" (TEndRun rid true) in ret a) w'
    | (Raise e, w') =>
        match tracking_request "mlflow.end_run" (TEndRun rid false) w' with
        | (_, w'') => (Raise e, w'')
        end
    end.

(* ===================================================================== *)
(** ** Module scope: dependency detection *)
(* ===================================================================== *)

Variable env : Env.
Variable DATA_CONFIG : DataConfig.

(** [import m] inside a function body. *)
Definition import_module (m : PyModule) : M unit :=
  match env m with
  | Some _ => ret tt
  | None => raise (import_error m)
  end.

(** [check_and_import_dependencies()]: the registry after the four
    [try: import ... except ImportError] blocks, and what they logged. *)
Definition check_and_import_dependencies (d : Dependencies)
  : Dependencies * list LogRecord :=
  (* MLflow *)
  let '(d, l1) :=
    match env mlflow with
    | Some v =>
        (mark_available mlflow v d,
         [mkLog INFO (Text ("✅ MLflow " +:+ v +:+ " available"))])
    | None =>
        (d, [mkLog WARNING (Text ("⚠️  MLflow not available: " +:+ exc_str (import_error mlflow)));
             mkLog INFO (Text "   → Experiment tracking will be disabled")])
    end in
  (* Pandas and NumPy *)
  let '(d, l2) :=
    match env pandas, env numpy with
    | Some vp, Some vn =>
        (mark_available numpy vn (mark_available pandas vp d),
         [mkLog INFO (Text ("✅ Pandas " +:+ vp +:+ " and NumPy " +:+ vn +:+ " available"))])
    | None, _ =>
        (d, [mkLog WARNING (Text ("⚠️  Pandas/NumPy not available: " +:+ exc_str (import_error pandas)));
             mkLog INFO (Text "   → Will use mock data generation")])
    | Some _, None =>
        (d, [mkLog WARNING (Text ("⚠️  Pandas/NumPy not available: " +:+ exc_str (import_error numpy)));
             mkLog INFO (Text "   → Will use mock data generation")])
    end in
  (* Scikit-learn *)
  let '(d, l3) :=
    match env sklearn with
    | Some v =>
        (mark_available sklearn v d,
         [mkLog INFO (Text ("✅ Scikit-learn " +:+ v +:+ " available"))])
    | None =>
        (d, [mkLog WARNING (Text ("⚠️  Scikit-learn not available: " +:+ exc_str (import_error sklearn)));
             mkLog INFO (Text "   → Will use mock models")])
    end in
  (* Kubeflow Pipelines *)
  let '(d, l4) :=
    match env kfp with
    | Some v =>
        (mark_available kfp v d,
         [mkLog INFO (Text ("✅ Kubeflow Pipelines SDK " +:+ v +:+ " available"))])
    | None =>
        (d, [mkLog WARNING (Text ("⚠️  KFP SDK not available: " +:+ exc_str (import_error kfp)));
             mkLog INFO (Text "   → Local execution only")])
    end in
  (d, l1 ++ l2 ++ l3 ++ l4).

(** The registry every function of the module reads: the module calls
    [check_and_import_dependencies()] once, while it is loaded. *)
Definition DEPENDENCIES : Dependencies :=
  fst (check_and_import_dependencies DEPENDENCIES_initial).

(* ===================================================================== *)
(** ** [error_handler] *)
(* ===================================================================== *)

(** [with error_handler(step_name): body].  The generator logs the start,
    reads the clock and yields; a body that ends normally (a [return]
    inside the block included) resumes it after the [yield]; an exception
    of the body is thrown in at the [yield], where [except Exception]
    catches the classes that derive from [Exception]. *)
Definition error_handler {A} (step_name : string) (body : M A) : M A :=
  let* _ := log INFO (Text ("🚀 Starting step: " +:+ step_name)) in
  let* start_time := now in
  try_except
    (let* a := body in
     let* end_time := now in
     let duration := end_time - start_time in
     let* _ := log INFO (Completed step_name duration) in
     ret a)
    is_Exception
    (fun e =>
       let* _ := log ERROR (Text ("❌ Failed step: " +:+ step_name +:+ " - " +:+ exc_str e)) in
       let* _ := log ERROR (Traceback "Full traceback:" e) in
       raise e).


(* ===================================================================== *)
(** ** [validate_data_quality] *)
(* ===================================================================== *)

(** The dict the quality gate returns; a key it did not set is [None].
    ([memory_usage_mb], [dtypes], [numeric_columns] and
    [categorical_columns] depend on pandas' storage and no caller reads
    them: they are left out.) *)
Record QualityMetrics := mkQM {
  qm_status : string;
  qm_reason : option string;
  qm_n_rows : option Z;
  qm_n_columns : option Z;
  qm_missing_values : option Z;
  qm_duplicate_rows : option Z;
  qm_issues : option (list string)
}.

Definition validate_data_quality (df : DataFrame) (step_name : string) : M QualityMetrics :=
  error_handler (step_name +:+ " - Data Quality Validation")
    (if negb (available (DEPENDENCIES pandas)) then
       ret (mkQM "skipped" (Some "pandas not available") None None None None None)
     else
       let* _ := import_module pandas in
       let* _ := import_module numpy in
       let n_rows := len_df df in
       let n_columns := len_columns df in
       let missing_values := count_missing df in
       let duplicate_rows := count_duplicates df in
       (* Check for data quality issues *)
       let issues : list string := [] in
       let issues :=
         if 0 <? missing_values
         then issues ++ ["Missing values: " +:+ str_of_Z missing_values] else issues in
       let issues :=
         if 0 <? duplicate_rows
         then issues ++ ["Duplicate rows: " +:+ str_of_Z duplicate_rows] else issues in
       let issues :=
         if n_rows <? 100
         then issues ++ ["Low sample count: " +:+ str_of_Z n_rows] else issues in
       let status := match issues with [] => "passed" | _ => "warning" end in
       let* _ := log INFO (Text ("Data quality check - Status: " +:+ status)) in
       let* _ :=
         match issues with
         | [] => ret tt
         | _ => log WARNING (Text ("Data quality issues: " +:+ join ", " issues))
         end in
       ret (mkQM status None (Some n_rows) (Some n_columns) (Some missing_values)
              (Some duplicate_rows) (Some issues))).

(* ===================================================================== *)
(** ** Step 1: [generate_synthetic_data] *)
(* ===================================================================== *)

Definition feature_names : list string :=
  ["tempo_bpm"; "energy_level"; "valence_score"; "danceability";
   "acousticness"; "instrumentalness"; "liveness_factor";
   "speechiness"; "loudness_db"; "duration_seconds"].

Definition feature_ranges : list (string * (float * float)) :=
  [("tempo_bpm", (60, 200)); ("energy_level", (0, 1)); ("valence_score", (0, 1));
   ("danceability", (0, 1)); ("acousticness", (0, 1)); ("instrumentalness", (0, 1));
   ("liveness_factor", (0, 1)); ("speechiness", (0, 1)); ("loudness_db", (-40, 0));
   ("duration_seconds", (30, 600))]%float.

Fixpoint dict_get {V} (key : string) (d : list (string * V)) : option V :=
  match d with
  | [] => None
  | (k, v) :: rest => if String.eqb k key then Some v else dict_get key rest
  end.

Definition outcome_bind {A B} (o : Outcome A) (k : A -> Outcome B) : Outcome B :=
  match o with
  | Return a => k a
  | Raise e => Raise e
  end.

(** One round of the scaling loop: column [i] is mapped affinely onto
    [[min_val, max_val]]. *)
Definition scale_column (X : Matrix) (i : Z) (min_val max_val : float) : Outcome Matrix :=
  outcome_bind (array_column X i) (fun col =>
  outcome_bind (array_min col) (fun lo =>
  outcome_bind (array_max col) (fun hi =>
  Return (array_set_column X i
            (map (fun x => ((x - lo) / (hi - lo) * (max_val - min_val) + min_val)%float)
               col))))).

(** [for i, feature in enumerate(names): if feature in feature_ranges: ...],
    from index [i] on. *)
Fixpoint scale_features (names : list string) (i : Z) (X : Matrix) : Outcome Matrix :=
  match names with
  | [] => Return X
  | feature :: rest =>
      match dict_get feature feature_ranges with
      | Some (min_val, max_val) =>
          outcome_bind (scale_column X i min_val max_val) (scale_features rest (i + 1))
      | None => scale_features rest (i + 1) X
      end
  end.

(** [[therapy_categories[label] for label in y]]. *)
Fixpoint therapy_labels (y : list Z) : Outcome (list Cell) :=
  match y with
  | [] => Return []
  | label :: rest =>
      let name :=
        if label =? 0 then Some "relaxation"
        else if label =? 1 then Some "motivation"
        else if label =? 2 then Some "focus" else None in
      match name with
      | Some s => outcome_bind (therapy_labels rest) (fun l => Return (CStr s :: l))
      | None => Raise (mkExn KeyError (str_of_Z label) "dict.__getitem__")
      end
  end.

(** [series.value_counts().to_dict()], as the dict it is (the order of the
    keys is not modelled). *)
Fixpoint value_counts (col : list Cell) (acc : list (string * Z)) : list (string * Z) :=
  match col with
  | [] => acc
  | CStr s :: rest =>
      value_counts rest
        (match dict_get s acc with
         | Some _ => map (fun kv => if String.eqb (fst kv) s then (fst kv, snd kv + 1) else kv) acc
         | None => acc ++ [(s, 1)]
         end)
  | _ :: rest => value_counts rest acc
  end.

(** The condition both tier-aware steps branch on. *)
Definition full_tier : bool :=
  available (DEPENDENCIES pandas) && available (DEPENDENCIES sklearn).

(** The body of the step, run where the module has loaded (see
    [load_module] below: without kfp it does not).  The decorator
    [@component_decorator] is not part of it. *)
Definition generate_synthetic_data (output_data_path : string) : M (Z * Z) :=
  error_handler "Data Generation"
    (if full_tier then
       let* _ := import_module pandas in
       let* _ := import_module numpy in
       let* _ := import_module sklearn in
       (* Generate synthetic music therapy data with realistic features *)
       let* _ := called (CallMakeClassification (n_samples DATA_CONFIG)
                           (n_features DATA_CONFIG) (n_classes DATA_CONFIG)) in
       let* '(X, y) := lift (make_classification L (n_samples DATA_CONFIG)
                                (n_features DATA_CONFIG) (n_classes DATA_CONFIG)
                                (random_state DATA_CONFIG)) in
       (* Normalize features to realistic ranges *)
       let* X_normalized := lift (scale_features feature_names 0 X) in
       (* Create DataFrame with proper column names *)
       let* df := lift (DataFrame_of X_normalized feature_names) in
       (* Add target with meaningful labels *)
       let* labels := lift (therapy_labels y) in
       let* df := lift (set_column df "therapy_category" labels) in
       let* df := lift (set_column df "therapy_category_encoded" (map CInt y)) in
       (* Add metadata columns *)
       let df := set_column_scalar df "data_source" (CStr "synthetic") in
       let* created_at := now in
       let df := set_column_scalar df "created_at" (CStr (isoformat L created_at)) in
       let df := set_column_scalar df "pipeline_version" (CStr PIPELINE_VERSION) in
       (* Ensure output directory exists *)
       let* _ := mkdir_parent output_data_path in
       (* Save dataset with compression *)
       let* _ := to_csv df output_data_path in
       (* Validate data quality *)
       let* quality_metrics := validate_data_quality df "Data Generation" in
       let* _ := log INFO (Text ("Generated dataset: " +:+ str_of_Z (len_df df)
                                 +:+ " samples, "
                                 +:+ str_of_Z (Z.of_nat (length feature_names))
                                 +:+ " features")) in
       let* _ := log INFO (TextWith "Class distribution: "
                             (JObj (map (fun kv => (fst kv, JInt (snd kv)))
                                      (value_counts labels [])))) in
       let* _ := log INFO (Text ("Data quality status: " +:+ qm_status quality_metrics)) in
       ret (len_df df, Z.of_nat (length feature_names))
     else
       (* Mock data generation *)
       let* _ := log WARNING (Text "Using mock data generation - dependencies not available") in
       let* generated_at := now in
       let mock_data :=
         JObj [("samples", JInt (n_samples DATA_CONFIG));
               ("features", JInt (n_features DATA_CONFIG));
               ("classes", JInt (n_classes DATA_CONFIG));
               ("generated_at", JStr (isoformat L generated_at))] in
       (* Ensure directory exists and save mock data *)
       let* _ := mkdir_parent output_data_path in
       let* _ := json_dump mock_data output_data_path in
       ret (n_samples DATA_CONFIG, n_features DATA_CONFIG)).


(* ===================================================================== *)
(** ** The scaler object *)
(* ===================================================================== *)

(** A [StandardScaler]: unfitted, or holding its fitted state.  [fit]
    replaces the state by what it computes from its argument; [transform]
    reads the state and hands the object back as it was. *)
Definition Scaler : Type := option (ScalerParams L).

Definition StandardScaler : Scaler := None.

Definition fit_transform (scaler : Scaler) (X : DataFrame) : M (Scaler * Matrix) :=
  let* _ := called (CallScalerFit X) in
  let* fitted := lift (scaler_fit L X) in
  let* out := lift (scaler_apply L fitted X) in
  ret (Some fitted, out).

Definition transform (scaler : Scaler) (X : DataFrame) : M (Scaler * Matrix) :=
  let* _ := called (CallScalerTransform X) in
  match scaler with
  | None =>
      raise (mkExn NotFittedError "This StandardScaler instance is not fitted yet"
               "StandardScaler.transform")
  | Some fitted =>
      let* out := lift (scaler_apply L fitted X) in
      ret (scaler, out)
  end.

(** The state a scaler object holds after [fit]. *)
Definition fitted_state (scaler : Scaler) : M (ScalerParams L) :=
  match scaler with
  | Some fitted => ret fitted
  | None => raise (mkExn NotFittedError "not fitted" "StandardScaler")
  end.

(* ===================================================================== *)
(** ** Step 2, first definition: [preprocess_data] with three splits

    The module defines [preprocess_data] twice.  This is the first
    definition (five paths, three sizes, both tiers); the second one,
    further down, replaces it when the module is loaded. *)
(* ===================================================================== *)

Definition metadata_columns : list string :=
  ["therapy_category"; "therapy_category_encoded"; "data_source";
   "created_at"; "pipeline_version"].

Definition string_in (x : string) (l : list string) : bool := existsb (String.eqb x) l.

(** The three engineered columns, added when there are four base features. *)
Definition engineer_features (X : DataFrame) (n_feature_columns : Z) : Outcome DataFrame :=
  if 4 <=? n_feature_columns then
    outcome_bind (iloc_column X 0) (fun c0 =>
    outcome_bind (iloc_column X 1) (fun c1 =>
    outcome_bind (series_scalar_op PrimFloat.add c1 1e-8%float) (fun c1e =>
    outcome_bind (series_op PrimFloat.div c0 c1e) (fun ratio =>
    outcome_bind (set_column X "tempo_energy_ratio" ratio) (fun X =>
    outcome_bind
      (if 2 <? len_columns X then
         outcome_bind (iloc_column X 2) (fun c2 =>
         outcome_bind (iloc_column X 1) (fun c1 =>
         outcome_bind (series_op PrimFloat.mul c2 c1) (fun v =>
         set_column X "valence_energy_interaction" v)))
       else Return (set_column_scalar X "valence_energy_interaction" (CInt 0)))
      (fun X =>
       if 7 <? len_columns X then
         outcome_bind (iloc_column X 4) (fun c4 =>
         outcome_bind (iloc_column X 7) (fun c7 =>
         outcome_bind (series_op PrimFloat.sub c4 c7) (fun v =>
         set_column X "acoustic_speech_balance" v)))
       else Return (set_column_scalar X "acoustic_speech_balance" (CInt 0))))))))
  else Return X.

(** One round of the loop that saves the splits. *)
Definition save_split (df_to_save : DataFrame) (path split_type : string)
    (processing_metadata : Json) : M unit :=
  (* Add split identifier *)
  let df_to_save := set_column_scalar df_to_save "split_type" (CStr split_type) in
  let df_to_save :=
    set_column_scalar df_to_save "processing_metadata"
      (CStr (json_dumps L processing_metadata)) in
  (* Ensure directory exists *)
  let* _ := mkdir_parent path in
  (* Save with compression *)
  let* _ := to_csv df_to_save path in
  (* Validate saved data *)
  let* _ := validate_data_quality df_to_save ("Preprocessing Output - " +:+ split_type) in
  ret tt.

(** One round of the loop of the mock branch. *)
Definition save_mock (mock_sizes : Z * Z * Z) (path : string) : M unit :=
  let '(s0, s1, s2) := mock_sizes in
  let* _ := mkdir_parent path in
  json_dump
    (JObj [("mock", JBool true);
           ("samples", JInt (if contains "train" path then s0
                             else if contains "val" path then s1 else s2))])
    path.

Definition preprocess_data_first
    (input_data_path train_data_path test_data_path validation_data_path scaler_path : string)
  : M (Z * Z * Z) :=
  error_handler "Data Preprocessing"
    (if full_tier then
       let* _ := import_module pandas in
       let* _ := import_module numpy in
       let* _ := import_module sklearn in
       (* Load and validate input data *)
       let* df :=
         try_except (read_csv input_data_path) is_Exception
           (fun e =>
              let* _ := log ERROR (Text ("Failed to load input data: " +:+ exc_str e)) in
              raise e) in
       let* quality_metrics := validate_data_quality df "Preprocessing Input" in
       let* _ := log INFO (Text "Performing feature engineering...") in
       (* Drop metadata columns for training *)
       let feature_columns :=
         List.filter (fun col => negb (string_in col metadata_columns)) (df_columns df) in
       let X := select_columns df feature_columns in
       (* Handle categorical target *)
       let* y :=
         if has_column df "therapy_category" then
           if has_column df "therapy_category_encoded"
           then lift (get_column df "therapy_category_encoded")
           else lift (get_column df "therapy_category")
         else raise (mkExn ValueError "Target column 'therapy_category' not found in dataset"
                       "preprocess_data") in
       (* Create additional engineered features *)
       let* X := lift (engineer_features X (Z.of_nat (length feature_columns))) in
       (* Handle missing values *)
       let* X :=
         if 0 <? count_missing X then
           let* _ := log WARNING (Text ("Found " +:+ str_of_Z (count_missing X)
                                        +:+ " missing values, filling with median")) in
           ret (fillna_median L X)
         else ret X in
       (* Split data into train/validation/test *)
       let* _ := called (CallTrainTestSplit (len_df X)) in
       let* '(X_temp, X_test, y_temp, y_test) :=
         lift (train_test_split L X y (test_size DATA_CONFIG) (random_state DATA_CONFIG)) in
       (* Further split temp into train and validation *)
       let* val_size_adjusted :=
         if PrimFloat.eqb (1 - test_size DATA_CONFIG) 0
         then raise (mkExn ZeroDivisionError "float division by zero" "preprocess_data")
         else ret (validation_size DATA_CONFIG / (1 - test_size DATA_CONFIG))%float in
       let* _ := called (CallTrainTestSplit (len_df X_temp)) in
       let* '(X_train, X_val, y_train, y_val) :=
         lift (train_test_split L X_temp y_temp val_size_adjusted (random_state DATA_CONFIG)) in
       (* Fit scaler on training data only *)
       let scaler := StandardScaler in
       let* '(scaler, X_train_scaled) := fit_transform scaler X_train in
       let* '(scaler, X_val_scaled) := transform scaler X_val in
       let* '(scaler, X_test_scaled) := transform scaler X_test in
       (* Convert back to DataFrames with proper column names *)
       let feature_names := df_columns X in
       let* train_df := lift (DataFrame_of X_train_scaled feature_names) in
       let* train_df := lift (set_column train_df "therapy_category_encoded" y_train) in
       let* val_df := lift (DataFrame_of X_val_scaled feature_names) in
       let* val_df := lift (set_column val_df "therapy_category_encoded" y_val) in
       let* test_df := lift (DataFrame_of X_test_scaled feature_names) in
       let* test_df := lift (set_column test_df "therapy_category_encoded" y_test) in
       (* Add processing metadata *)
       let* processed_at := now in
       let processing_metadata :=
         JObj [("processed_at", JStr (isoformat L processed_at));
               ("pipeline_version", JStr PIPELINE_VERSION);
               ("scaler_type", JStr "StandardScaler");
               ("feature_count", JInt (Z.of_nat (length feature_names)));
               ("train_samples", JInt (len_df train_df));
               ("val_samples", JInt (len_df val_df));
               ("test_samples", JInt (len_df test_df))] in
       (* Save processed datasets *)
       let* _ := save_split train_df train_data_path "train" processing_metadata in
       let* _ := save_split val_df validation_data_path "validation" processing_metadata in
       let* _ := save_split test_df test_data_path "test" processing_metadata in
       (* Save scaler with metadata *)
       let* fitted := fitted_state scaler in
       let scaler_data := PScalerData fitted feature_names processing_metadata in
       let* _ := mkdir_parent scaler_path in
       let* _ := pickle_dump scaler_data scaler_path in
       let* _ := log INFO (Text "Data preprocessing completed:") in
       let* _ := log INFO (Text ("  - Training samples: " +:+ str_of_Z (len_df train_df))) in
       let* _ := log INFO (Text ("  - Validation samples: " +:+ str_of_Z (len_df val_df))) in
       let* _ := log INFO (Text ("  - Test samples: " +:+ str_of_Z (len_df test_df))) in
       let* _ := log INFO (Text ("  - Features: "
                                 +:+ str_of_Z (Z.of_nat (length feature_names)))) in
       ret (len_df train_df, len_df val_df, len_df test_df)
     else
       (* Mock preprocessing *)
       let* _ := log WARNING (Text "Using mock preprocessing - dependencies not available") in
       let mock_sizes := (800, 100, 100) in
       let* _ := save_mock mock_sizes train_data_path in
       let* _ := save_mock mock_sizes validation_data_path in
       let* _ := save_mock mock_sizes test_data_path in
       let* _ := save_mock mock_sizes scaler_path in
       ret mock_sizes).


(* ===================================================================== *)
(** ** Step 2, second definition: the [preprocess_data] in effect *)
(* ===================================================================== *)

(** The definition the name [preprocess_data] is bound to once the module
    is loaded: four paths, two splits, no tier branch, no [error_handler]. *)
Definition preprocess_data
    (input_data_path train_data_path test_data_path scaler_path : string)
  : M (Z * Z) :=
  let* _ := import_module pandas in
  let* _ := import_module sklearn in
  (* Load data *)
  let* df := read_csv input_data_path in
  (* Separate features and target *)
  let* X := lift (drop_column df "therapy_category") in
  let* y := lift (get_column df "therapy_category") in
  (* Split data *)
  let* _ := called (CallTrainTestSplit (len_df X)) in
  let* '(X_train, X_test, y_train, y_test) := lift (train_test_split L X y 0.2%float 42) in
  (* Scale features *)
  let scaler := StandardScaler in
  let* '(scaler, X_train_scaled) := fit_transform scaler X_train in
  let* '(scaler, X_test_scaled) := transform scaler X_test in
  (* Convert back to DataFrame *)
  let* X_train_df := lift (DataFrame_of X_train_scaled (df_columns X)) in
  let* X_test_df := lift (DataFrame_of X_test_scaled (df_columns X)) in
  (* Add target back *)
  let* train_df := lift (set_column X_train_df "therapy_category" y_train) in
  let* test_df := lift (set_column X_test_df "therapy_category" y_test) in
  (* Save processed data *)
  let* _ := to_csv train_df train_data_path in
  let* _ := to_csv test_df test_data_path in
  (* Save scaler *)
  let* fitted := fitted_state scaler in
  let* _ := pickle_dump (PScaler fitted) scaler_path in
  ret (len_df train_df, len_df test_df).

(* ===================================================================== *)
(** ** Step 3: [train_model] *)
(* ===================================================================== *)

(** [mlflow.sklearn.log_model(model, "model", registered_model_name=...)]:
    an [AttributeError] when the client has no [mlflow.sklearn], else one
    request. *)
Definition mlflow_sklearn_log_model (rid : string) : M unit :=
  if mlflow_sklearn_flavor L then
    tracking_request "mlflow.sklearn.log_model" (TLogModel rid "model" "music-therapy-classifier")
  else
    raise (mkExn AttributeError "module 'mlflow' has no attribute 'sklearn'"
             "mlflow.sklearn.log_model").

Definition catches_attribute_or_import (e : Exn) : bool :=
  match exc_class e with
  | AttributeError | ImportError => true
  | _ => false
  end.

Definition train_model (train_data_path model_path metrics_path : string)
    (n_estimators max_depth random_state : Z) : M (float * string) :=
  let* _ := import_module pandas in
  let* _ := import_module mlflow in
  let* _ := import_module sklearn in
  (* Setup MLflow: the URI is only stored; the experiment is looked up *)
  let* _ := tracking_request "mlflow.set_experiment" (TSetExperiment "music-therapy-model") in
  (* Load training data *)
  let* train_df := read_csv train_data_path in
  let* X_train := lift (drop_column train_df "therapy_category") in
  let* y_train := lift (get_column train_df "therapy_category") in
  (* Start MLflow run *)
  with_run (fun run_id =>
    (* Log parameters *)
    let* _ := tracking_request "mlflow.log_param" (TLogParam run_id "n_estimators" n_estimators) in
    let* _ := tracking_request "mlflow.log_param" (TLogParam run_id "max_depth" max_depth) in
    let* _ := tracking_request "mlflow.log_param" (TLogParam run_id "random_state" random_state) in
    (* Train model *)
    let* _ := called (CallModelFit X_train) in
    let* model := lift (model_fit L n_estimators max_depth random_state X_train y_train) in
    (* Make predictions *)
    let* _ := called (CallModelPredict X_train) in
    let* y_pred := lift (model_predict L model X_train) in
    let* accuracy := lift (accuracy_score L y_train y_pred) in
    (* Log metrics *)
    let* _ := tracking_request "mlflow.log_metric" (TLogMetric run_id "train_accuracy" accuracy) in
    (* Log model; the fallback uploads a temporary pickle instead *)
    let* _ :=
      try_except (mlflow_sklearn_log_model run_id) catches_attribute_or_import
        (fun _ => tracking_request "mlflow.log_artifact" (TLogArtifact run_id "model")) in
    (* Save model locally *)
    let* _ := pickle_dump (PModel model) model_path in
    (* Save metrics *)
    let metrics :=
      JObj [("accuracy", JFloat accuracy); ("run_id", JStr run_id);
            ("model_version", JStr run_id)] in
    let* _ := json_dump metrics metrics_path in
    ret (accuracy, run_id)).

(* ===================================================================== *)
(** ** Step 4: [evaluate_model] *)
(* ===================================================================== *)

Definition evaluate_model (test_data_path model_path evaluation_path : string)
  : M (float * float) :=
  let* _ := import_module pandas in
  let* _ := import_module mlflow in
  let* _ := import_module sklearn in
  (* Load test data and model *)
  let* test_df := read_csv test_data_path in
  let* X_test := lift (drop_column test_df "therapy_category") in
  let* y_test := lift (get_column test_df "therapy_category") in
  let* obj := pickle_load model_path in
  (* Make predictions *)
  let* y_pred :=
    match obj with
    | PModel model =>
        let* _ := called (CallModelPredict X_test) in
        lift (model_predict L model X_test)
    | _ => raise (mkExn AttributeError "object has no attribute 'predict'" "model.predict")
    end in
  (* Calculate metrics *)
  let* accuracy := lift (accuracy_score L y_test y_pred) in
  let* precision := lift (precision_score L y_test y_pred) in
  (* Log to MLflow *)
  let* _ :=
    with_run (fun run_id =>
      let* _ := tracking_request "mlflow.log_metric" (TLogMetric run_id "test_accuracy" accuracy) in
      tracking_request "mlflow.log_metric" (TLogMetric run_id "test_precision" precision)) in
  (* Save evaluation results *)
  let* report := lift (classification_report L y_test y_pred) in
  let evaluation :=
    JObj [("test_accuracy", JFloat accuracy); ("test_precision", JFloat precision);
          ("classification_report", report)] in
  let* _ := json_dump evaluation evaluation_path in
  ret (accuracy, precision).

(* ===================================================================== *)
(** ** The pipeline graph *)
(* ===================================================================== *)

(** Loading the module.  Everything above the pipeline definition loads
    in any environment; the decorator [@dsl.pipeline] needs the name
    [dsl], which the module binds only in the branch
    [if DEPENDENCIES['kfp']['available']]. *)
Definition load_module : M unit :=
  fun w =>
    let '(d, logged) := check_and_import_dependencies DEPENDENCIES_initial in
    let w := set_log (w_log w ++ logged) w in
    if available (d kfp) then (Return tt, w)
    else (Raise (mkExn NameError "name 'dsl' is not defined" "@dsl.pipeline"), w).

(** The paths the orchestrator hands to the steps. *)
Record Paths := mkPaths {
  output_data_path : string;
  train_data_path : string;
  test_data_path : string;
  scaler_path : string;
  model_path : string;
  metrics_path : string;
  evaluation_path : string
}.

Inductive PipelineState := started | generated | preprocessed | trained | evaluated.

(** [music_therapy_pipeline]: the four steps in the order the graph
    fixes ([preprocess_op.after(data_gen_op)], [train_op.after(preprocess_op)],
    [evaluate_op.after(train_op)]), each run to its end before the next; the
    first exception ends the run.  The result is the last state reached
    and, when that is not [evaluated], the exception. *)
Definition music_therapy_pipeline (P : Paths) (n_estimators max_depth random_state : Z)
  : World -> PipelineState * option Exn * World :=
  fun w =>
    match generate_synthetic_data (output_data_path P) w with
    | (Raise e, w) => (started, Some e, w)
    | (Return _, w) =>
    match preprocess_data (output_data_path P) (train_data_path P) (test_data_path P)
            (scaler_path P) w with
    | (Raise e, w) => (generated, Some e, w)
    | (Return _, w) =>
    match train_model (train_data_path P) (model_path P) (metrics_path P)
            n_estimators max_depth random_state w with
    | (Raise e, w) => (preprocessed, Some e, w)
    | (Return _, w) =>
    match evaluate_model (test_data_path P) (model_path P) (evaluation_path P) w with
    | (Raise e, w) => (trained, Some e, w)
    | (Return _, w) => (evaluated, None, w)
    end end end end.

End Pipeline.

Arguments Return {A} a.
Arguments mkFS {L} _ _.
Arguments mkWorld {L} _ _ _ _ _.
Arguments FCsv {L} _ _.
Arguments FJson {L} _.
Arguments FPickle {L} _.

(* ===================================================================== *)
(** ** A small instance of the libraries, for running the steps *)
(* ===================================================================== *)

Module Toy.

(** Row [i] of the generated array: [i + j] in column [j]. *)
Definition generated_row (n_features : Z) (i : nat) : list float :=
  map (fun j => float_of_Z (Z.of_nat i + Z.of_nat j)) (seq 0 (Z.to_nat n_features)).

(** Like scikit-learn, refuses fewer features than the eight informative
    and two redundant ones it is asked for. *)
Definition make_classification (n_samples n_features n_classes seed : Z)
  : Outcome (Matrix * list Z) :=
  if n_features <? 8 + 2 then
    Raise (mkExn ValueError
             "Number of informative, redundant and repeated features must sum to less than the number of total features"
             "make_classification")
  else
    Return (mkMatrix n_features (map (generated_row n_features) (seq 0 (Z.to_nat n_samples))),
            map (fun i => Z.of_nat i mod n_classes) (seq 0 (Z.to_nat n_samples))).


(** The least [k <= n] with [k >= fraction * n]. *)
Definition ceil_fraction (fraction : float) (n : nat) : nat :=
  match find (fun k => negb (PrimFloat.ltb (float_of_Z (Z.of_nat k))
                               (fraction * float_of_Z (Z.of_nat n))%float))
          (seq 0 (S n)) with
  | Some k => k
  | None => n
  end.

(** The last [ceil(test_size * n)] rows are the second part. *)
Definition train_test_split (X : DataFrame) (y : list Cell) (test_size : float) (seed : Z)
  : Outcome (DataFrame * DataFrame * list Cell * list Cell) :=
  let n := length (df_rows X) in
  let k := (n - ceil_fraction test_size n)%nat in
  Return (mkDF (df_columns X) (firstn k (df_rows X)),
          mkDF (df_columns X) (skipn k (df_rows X)),
          firstn k y, skipn k y).

Definition cell_value (c : Cell) : float :=
  match c with
  | CFloat f => f
  | CInt z => float_of_Z z
  | _ => 0%float
  end.

(** The fitted state is the frame the scaler was fitted on; transforming
    keeps the values. *)
Definition scaler_fit (X : DataFrame) : Outcome DataFrame := Return X.

Definition scaler_apply (fitted : DataFrame) (X : DataFrame) : Outcome Matrix :=
  Return (mkMatrix (len_columns X) (map (map cell_value) (df_rows X))).

(** The model is the first label it saw, and predicts it for every row. *)
Definition model_fit (n_estimators max_depth seed : Z) (X : DataFrame) (y : list Cell)
  : Outcome Cell :=
  Return (hd CNull y).

Definition model_predict (model : Cell) (X : DataFrame) : Outcome (list Cell) :=
  Return (map (fun _ => model) (df_rows X)).

Fixpoint matches (a b : list Cell) : Z :=
  match a, b with
  | x :: a', y :: b' => (if cell_eqb x y then 1 else 0) + matches a' b'
  | _, _ => 0
  end.

Definition accuracy_score (y y_pred : list Cell) : Outcome float :=
  Return (float_of_Z (matches y y_pred) / float_of_Z (Z.of_nat (length y)))%float.

Definition classification_report (y y_pred : list Cell) : Outcome Json :=
  Return (JObj [("support", JInt (Z.of_nat (length y)))]).

Definition fillna_median (X : DataFrame) : DataFrame :=
  mkDF (df_columns X)
    (map (map (fun c => if cell_isnull c then CFloat 0 else c)) (df_rows X)).

Definition isoformat (t : Z) : string := "T" +:+ str_of_Z t.

Definition json_dumps (j : Json) : string :=
  match j with
  | JObj kv => "{" +:+ join ", " (map fst kv) +:+ "}"
  | _ => "null"
  end.

Definition libs : Libs :=
  mkLibs DataFrame Cell make_classification train_test_split scaler_fit scaler_apply
    model_fit model_predict accuracy_score accuracy_score classification_report
    fillna_median isoformat json_dumps true.


(** Environments. *)
Definition env_all : Env :=
  fun m =>
    match m with
    | mlflow => Some "2.9.2" | sklearn => Some "1.4.0" | pandas => Some "2.2.0"
    | numpy => Some "1.26.4" | kfp => Some "2.0.0"
    end.

(** Everything but the tracking client. *)
Definition env_no_mlflow : Env :=
  fun m => match m with mlflow => None | _ => env_all m end.

(** The orchestration SDK alone: neither tabular nor ML engine. *)
Definition env_kfp_only : Env :=
  fun m => match m with kfp => Some "2.0.0" | _ => None end.

Definition env_none : Env := fun _ => None.

(** Worlds. *)
Definition tracker_up : Tracking := mkTracking true 0 [].
Definition tracker_down : Tracking := mkTracking false 0 [].

Definition fs_empty : FS libs := mkFS ∅ ∅.

Definition world_empty : World libs := mkWorld fs_empty [] 0 tracker_up [].

Definition paths : Paths :=
  mkPaths "out/raw/data.csv" "out/processed/train.csv" "out/processed/test.csv"
    "out/processed/scaler.pkl" "out/models/model.pkl" "out/models/metrics.json"
    "out/reports/evaluation.json".

(** A training table of four rows, stored where [train_model] is told to
    read it; the directory of the model does not exist. *)
Definition train_table : DataFrame :=
  mkDF ["tempo_bpm"; "energy_level"; "therapy_category"]
    [[CFloat 120; CFloat 0.5; CStr "focus"];
     [CFloat 90; CFloat 0.25; CStr "relaxation"];
     [CFloat 150; CFloat 0.75; CStr "motivation"];
     [CFloat 100; CFloat 0.5; CStr "focus"]].

Definition fs_with_train : FS libs :=
  mkFS {[ ["data"] ]} {[ ["data"; "train.csv"] := FCsv false train_table ]}.

Definition world_with_train (t : Tracking) : World libs :=
  mkWorld fs_with_train [] 0 t [].

(** A raw table as [generate_synthetic_data] lays it out, twenty rows of
    four base features. *)
Definition raw_table : DataFrame :=
  mkDF ["tempo_bpm"; "energy_level"; "valence_score"; "danceability";
        "therapy_category"; "therapy_category_encoded"; "data_source";
        "created_at"; "pipeline_version"]
    (map (fun i =>
            [CFloat (float_of_Z (60 + Z.of_nat i)); CFloat (float_of_Z (Z.of_nat i));
             CFloat 0.5; CFloat (float_of_Z (Z.of_nat (i * i)));
             CStr "focus"; CInt 2; CStr "synthetic"; CStr "T0"; CStr "2.0.0"])
       (seq 0 20)).



(** A step body that takes [d] microseconds and then raises [e]. *)
Definition fail_after (d : Z) (e : Exn) : M libs unit :=
  fun w => (Raise e, mkWorld (w_fs _ w) (w_log _ w) (w_clock _ w + d) (w_tracking _ w) (w_calls _ w)).

Definition boom : Exn := mkExn ValueError "Target column 'therapy_category' not found in dataset" "preprocess_data".

(** The log after a step named "Data Preprocessing" failed [d]
    microseconds into its body. *)
Definition failure_log (d : Z) : list LogRecord :=
  w_log _ (snd (error_handler libs "Data Preprocessing" (fail_after d boom) world_empty)).

(** A table of [n] distinct rows without nulls. *)
Definition clean_table (n : nat) : DataFrame :=
  mkDF ["tempo_bpm"; "therapy_category"]
    (map (fun i => [CFloat (float_of_Z (Z.of_nat i)); CStr "focus"]) (seq 0 n)).

Definition world_with_raw : World libs :=
  mkWorld (mkFS {[ ["out"]; ["out"; "raw"] ]}
             {[ ["out"; "raw"; "data.csv"] := FCsv false raw_table ]})
    [] 0 tracker_up [].

End Toy.

Arguments w_fs {L} _.
Arguments w_log {L} _.
Arguments w_clock {L} _.
Arguments w_tracking {L} _.
Arguments w_calls {L} _.
Arguments fs_dirs {L} _.
Arguments fs_files {L} _.
Arguments set_log {L} _ _.
Arguments set_fs {L} _ _.
Arguments is_file {L} _ _.
Arguments is_dir {L} _ _.

(* ===================================================================== *)
(** ** Vocabulary of the statements *)
(* ===================================================================== *)

(** The issue list, as the three appends build it. *)
Definition issues_of (df : DataFrame) : list string :=
  (if 0 <? count_missing df then ["Missing values: " +:+ str_of_Z (count_missing df)] else [])
  ++ (if 0 <? count_duplicates df
      then ["Duplicate rows: " +:+ str_of_Z (count_duplicates df)] else [])
  ++ (if len_df df <? 100 then ["Low sample count: " +:+ str_of_Z (len_df df)] else []).

Definition status_of (issues : list string) : string :=
  match issues with [] => "passed" | _ => "warning" end.

(** The two records [error_handler] logs when the body raised. *)
Definition failure_records (step_name : string) (e : Exn) : list LogRecord :=
  [mkLog ERROR (Text ("❌ Failed step: " +:+ step_name +:+ " - " +:+ exc_str e));
   mkLog ERROR (Traceback "Full traceback:" e)].

(** A computation that leaves the trace of library calls as it found it. *)
Definition silent {L : Libs} {A} (m : M L A) : Prop :=
  forall w, w_calls (snd (m w)) = w_calls w.

(** A computation that only adds to the trace. *)
Definition appends {L : Libs} {A} (m : M L A) : Prop :=
  forall w, exists rest, w_calls (snd (m w)) = w_calls w ++ rest.


(* ===================================================================== *)
(** ** Frames, creatable paths and further instances *)
(* ===================================================================== *)

(** [keeps f m]: the computation [m] does not change the component [f] of
    the world. *)
Definition keeps {L : Libs} {X A : Type} (f : World L -> X) (m : M L A) : Prop :=
  forall w, f (snd (m w)) = f w.

(** Components that do not depend on the log, on the library trace, on
    the file system, on the tracking server. *)
Definition ignores_log {L : Libs} {X : Type} (f : World L -> X) : Prop :=
  forall l w, f (set_log l w) = f w.
Definition ignores_calls {L : Libs} {X : Type} (f : World L -> X) : Prop :=
  forall c w, f (set_calls L c w) = f w.
Definition ignores_fs {L : Libs} {X : Type} (f : World L -> X) : Prop :=
  forall fs w, f (set_fs fs w) = f w.
Definition ignores_tracking {L : Libs} {X : Type} (f : World L -> X) : Prop :=
  forall t w, f (set_tracking L t w) = f w.

(** A computation that, with the tracking server down, raises and leaves
    the file system as it found it. *)
Definition stops_clean {L : Libs} {A} (m : M L A) : Prop :=
  forall w, tr_up (w_tracking w) = false ->
            exists e w', m w = (Raise e, w') /\ w_fs w' = w_fs w.

(** A path at which [mkdir] of the parent and the write both go through:
    not empty, not a directory (by its spelling or in the file system),
    and no regular file where a directory is needed. *)
Definition can_create {L : Libs} (fs : FS L) (path : string) : bool :=
  negb (String.eqb path "")
  && negb (endswith "/" path)
  && negb (is_dir fs (parts path))
  && negb (is_file fs (parent (parts path)))
  && negb (existsb (is_file fs) (ancestors_and_self (parent (parts path)))).

(** Everything installed but the orchestration SDK. *)
Definition env_no_kfp : Env :=
  fun m => match m with kfp => None | _ => Toy.env_all m end.

(** A step body that takes [d] microseconds and returns, and the log
    after a step named "Data Preprocessing" ran it. *)
Definition finish_after (d : Z) : M Toy.libs unit :=
  fun w => (Return tt, mkWorld (w_fs w) (w_log w) (w_clock w + d) (w_tracking w) (w_calls w)).

Definition success_log (d : Z) : list LogRecord :=
  w_log (snd (error_handler Toy.libs "Data Preprocessing" (finish_after d) Toy.world_empty)).

(** Twenty samples of ten features in three classes, and five samples in
    four classes. *)
Definition config_small : DataConfig := mkDataConfig 20 10 3 0.2%float 0.1%float 42.
Definition config_four_classes : DataConfig := mkDataConfig 5 10 4 0.2%float 0.1%float 42.

(** A table without the target column, stored as [data/train.csv]. *)
Definition table_without_target : DataFrame :=
  mkDF ["tempo_bpm"; "energy_level"] [[CFloat 120; CFloat 0.5]; [CFloat 90; CFloat 0.25]].

Definition world_without_target : World Toy.libs :=
  mkWorld (mkFS {[ ["data"] ]} {[ ["data"; "train.csv"] := FCsv false table_without_target ]})
    [] 0 Toy.tracker_up [].


(** The world the training step leaves when it is run on the four-row
    table with the tracking server up. *)
Definition world_with_model : World Toy.libs :=
  snd (train_model Toy.libs Toy.env_all "data/train.csv" "data/model.pkl" "data/metrics.json"
         100 10 42 (Toy.world_with_train Toy.tracker_up)).

(** [setup_mlflow]. [set_tracking_uri] only stores the address in the
    client. [create_experiment] is the call of the client that goes
    through the server's experiment store, taken here as it comes; the
    address and the experiment name are the entries of [MLFLOW_CONFIG],
    read from the process environment when the module loads. *)
Definition is_MlflowException (e : Exn) : bool :=
  match exc_class e with MlflowException => true | _ => false end.

Definition setup_mlflow (L : Libs) (env : Env) (tracking_uri experiment_name : string)
    (create_experiment : M L unit) : M L bool :=
  if negb (available (DEPENDENCIES env mlflow)) then
    bind L (log L WARNING (Text "MLflow not available - skipping setup")) (fun _ =>
    ret L false)
  else
    try_except L
      (bind L (import_module L env mlflow) (fun _ =>
       (* Set tracking URI *)
       bind L (log L INFO (Text ("MLflow tracking URI: " +:+ tracking_uri))) (fun _ =>
       (* Create experiment if it doesn't exist *)
       bind L (try_except L
                 (bind L create_experiment (fun _ =>
                  log L INFO (Text ("Created new experiment: " +:+ experiment_name))))
                 is_MlflowException
                 (fun _ => log L INFO (Text ("Using existing experiment: "
                                             +:+ experiment_name)))) (fun _ =>
       (* Set the experiment *)
       bind L (tracking_request L "mlflow.set_experiment" (TSetExperiment experiment_name))
         (fun _ =>
       ret L true)))))
      is_Exception
      (fun e =>
         bind L (log L ERROR (Text ("Failed to setup MLflow: " +:+ exc_str e))) (fun _ =>
         ret L false)).

(* ===================================================================== *)
(** * Properties *)
(* ===================================================================== *)

(** ** Detection *)

Lemma available_pandas (env : Env) :
  available (DEPENDENCIES env pandas)
  = match env pandas, env numpy with Some _, Some _ => true | _, _ => false end.
Proof.
  unfold DEPENDENCIES, check_and_import_dependencies.
  destruct (env mlflow), (env pandas), (env numpy), (env sklearn), (env kfp); reflexivity.
Qed.

Lemma available_numpy (env : Env) :
  available (DEPENDENCIES env numpy) = available (DEPENDENCIES env pandas).
Proof.
  unfold DEPENDENCIES, check_and_import_dependencies.
  destruct (env mlflow), (env pandas), (env numpy), (env sklearn), (env kfp); reflexivity.
Qed.

Lemma available_sklearn (env : Env) :
  available (DEPENDENCIES env sklearn)
  = match env sklearn with Some _ => true | None => false end.
Proof.
  unfold DEPENDENCIES, check_and_import_dependencies.
  destruct (env mlflow), (env pandas), (env numpy), (env sklearn), (env kfp); reflexivity.
Qed.

Lemma available_kfp (env : Env) :
  available (DEPENDENCIES env kfp)
  = match env kfp with Some _ => true | None => false end.
Proof.
  unfold DEPENDENCIES, check_and_import_dependencies.
  destruct (env mlflow), (env pandas), (env numpy), (env sklearn), (env kfp); reflexivity.
Qed.

(** A library the registry reports can be imported. *)
Lemma available_pandas_importable (env : Env) :
  available (DEPENDENCIES env pandas) = true ->
  (exists vp, env pandas = Some vp) /\ (exists vn, env numpy = Some vn).
Proof.
  rewrite available_pandas.
  destruct (env pandas), (env numpy); try discriminate; eauto.
Qed.

Lemma available_sklearn_importable (env : Env) :
  available (DEPENDENCIES env sklearn) = true -> exists v, env sklearn = Some v.
Proof.
  rewrite available_sklearn. destruct (env sklearn); try discriminate; eauto.
Qed.

(** ** The quality gate *)

Lemma validate_data_quality_returns (L : Libs) (env : Env) df step_name (w : World L) :
  exists w',
    validate_data_quality L env df step_name w
    = (Return
         (if available (DEPENDENCIES env pandas) then
            mkQM (status_of (issues_of df)) None (Some (len_df df)) (Some (len_columns df))
              (Some (count_missing df)) (Some (count_duplicates df)) (Some (issues_of df))
          else mkQM "skipped" (Some "pandas not available") None None None None None),
       w')
    /\ w_fs w' = w_fs w /\ w_calls w' = w_calls w /\ w_tracking w' = w_tracking w
    /\ w_clock w' = w_clock w.
Proof.
  unfold validate_data_quality.
  destruct (available (DEPENDENCIES env pandas)) eqn:Hav.
  - destruct (available_pandas_importable env Hav) as [[vp Hp] [vn Hn]].
    unfold error_handler, try_except, bind, import_module, issues_of.
    rewrite Hp, Hn. cbn [negb].
    destruct (0 <? count_missing df), (0 <? count_duplicates df), (len_df df <? 100);
      cbn; eexists; repeat split; reflexivity.
  - cbn. eexists; repeat split; reflexivity.
Qed.

(** C5. For every table, the quality gate returns a report and never
    raises; the report's status is "warning" exactly when its issue list
    is non-empty, "passed" exactly when the issue list is empty, and
    "skipped" exactly when the registry reports pandas unavailable (the
    skipped report carries no issue list). *)
Theorem quality_report_status_invariant
    (L : Libs) (env : Env) (df : DataFrame) (step_name : string) (w : World L) :
  exists r w',
    validate_data_quality L env df step_name w = (Return r, w')
    /\ (qm_status r = "warning" <-> exists issues, qm_issues r = Some issues /\ issues <> [])
    /\ (qm_status r = "passed" <-> qm_issues r = Some [])
    /\ (qm_status r = "skipped" <-> available (DEPENDENCIES env pandas) = false).
Proof.
  destruct (validate_data_quality_returns L env df step_name w) as (w' & Hrun & _).
  eexists; exists w'. split; [exact Hrun |].
  destruct (available (DEPENDENCIES env pandas)); cbn [qm_status qm_issues].
  - destruct (issues_of df) as [| i rest]; cbn [status_of].
    + repeat split; try discriminate; auto.
      intros (issues & Heq & Hne). congruence.
    + repeat split; try discriminate; auto.
      intros _. exists (i :: rest). split; [reflexivity | discriminate].
  - repeat split; try discriminate; auto.
    intros (issues & Heq & _). discriminate.
Qed.

(** C6. With pandas available, the issue list is the concatenation, in
    this order, of the missing-value entry (present when the count is
    positive), the duplicate-row entry (present when the count is
    positive) and the low-sample entry (present when there are fewer than
    100 rows); so a table with no missing value, no duplicate row and at
    least 100 rows gets status "passed" and an empty issue list. *)
Theorem quality_issues_order
    (L : Libs) (env : Env) (df : DataFrame) (step_name : string) (w : World L) :
  available (DEPENDENCIES env pandas) = true ->
  exists r w',
    validate_data_quality L env df step_name w = (Return r, w')
    /\ qm_issues r
       = Some ((if 0 <? count_missing df
                then ["Missing values: " +:+ str_of_Z (count_missing df)] else [])
               ++ (if 0 <? count_duplicates df
                   then ["Duplicate rows: " +:+ str_of_Z (count_duplicates df)] else [])
               ++ (if len_df df <? 100
                   then ["Low sample count: " +:+ str_of_Z (len_df df)] else []))
    /\ (count_missing df = 0 -> count_duplicates df = 0 -> 100 <= len_df df ->
        qm_status r = "passed" /\ qm_issues r = Some []).
Proof.
  intros Hav.
  destruct (validate_data_quality_returns L env df step_name w) as (w' & Hrun & _).
  rewrite Hav in Hrun.
  eexists; exists w'. split; [exact Hrun |].
  cbn [qm_status qm_issues]. split; [reflexivity |].
  intros Hm Hd Hn. unfold issues_of. rewrite Hm, Hd.
  replace (len_df df <? 100) with false by (symmetry; apply Z.ltb_ge; exact Hn).
  split; reflexivity.
Qed.

Lemma quality_issues_order_witness :
  exists r w',
    validate_data_quality Toy.libs Toy.env_all (Toy.clean_table 100) "Data Generation"
      Toy.world_empty = (Return r, w')
    /\ qm_status r = "passed" /\ qm_issues r = Some [].
Proof.
  destruct (quality_issues_order Toy.libs Toy.env_all (Toy.clean_table 100) "Data Generation"
              Toy.world_empty eq_refl) as (r & w' & Hrun & _ & Hpassed).
  exists r, w'. split; [exact Hrun |].
  apply Hpassed; vm_compute; congruence.
Defined.

(** ** The step executor *)

(** What [error_handler] makes of the outcome of its body. *)
Lemma error_handler_outcome
    (L : Libs) (A : Type) (step_name : string) (body : M L A) (w : World L) :
  let w1 := set_log (w_log w ++ [mkLog INFO (Text ("🚀 Starting step: " +:+ step_name))]) w in
  error_handler L step_name body w
  = match body w1 with
    | (Return a, w2) =>
        (Return a,
         set_log (w_log w2 ++ [mkLog INFO (Completed step_name (w_clock w2 - w_clock w))]) w2)
    | (Raise e, w2) =>
        (Raise e,
         set_log (w_log w2 ++ (if is_Exception e then failure_records step_name e else [])) w2)
    end.
Proof.
  unfold error_handler, try_except, bind, log, now, raise, ret.
  cbv beta iota zeta. cbn [w_clock set_log].
  destruct (body _) as [[a | e] w2]; [reflexivity |].
  destruct (is_Exception e); cbv beta iota.
  - unfold set_log; cbn [w_log w_fs w_clock w_tracking w_calls].
    rewrite <- app_assoc. reflexivity.
  - unfold set_log. rewrite app_nil_r. destruct w2; reflexivity.
Qed.

(** C7, as the code has it. Whatever the body and whatever it raises,
    [error_handler] raises that same exception object. When its class
    derives from [Exception], it first logs two ERROR records whose
    messages are made of the step name, [str(e)] and the traceback, and of
    nothing else: no duration is computed on this path. Any other
    exception passes without a record. *)
Theorem error_handler_reraises
    (L : Libs) (A : Type) (step_name : string) (body : M L A) (w w2 : World L) (e : Exn) :
  body (set_log (w_log w ++ [mkLog INFO (Text ("🚀 Starting step: " +:+ step_name))]) w)
  = (Raise e, w2) ->
  error_handler L step_name body w
  = (Raise e,
     set_log (w_log w2 ++ (if is_Exception e then failure_records step_name e else [])) w2).
Proof.
  intros Hbody. rewrite error_handler_outcome. cbv zeta. rewrite Hbody. reflexivity.
Qed.

Lemma error_handler_reraises_witness :
  error_handler Toy.libs "Data Preprocessing" (Toy.fail_after 5000000 Toy.boom) Toy.world_empty
  = (Raise Toy.boom,
     mkWorld Toy.fs_empty
       ([mkLog INFO (Text "🚀 Starting step: Data Preprocessing")]
        ++ failure_records "Data Preprocessing" Toy.boom)
       5000000 Toy.tracker_up []).
Proof.
  exact (error_handler_reraises Toy.libs unit "Data Preprocessing"
           (Toy.fail_after 5000000 Toy.boom) Toy.world_empty _ Toy.boom eq_refl).
Defined.

(** C7, as stated, fails: what [error_handler] logs on a failure does
    not include the time the body ran. A step that fails after five
    seconds and one that fails after nine log the same three messages: the
    start message, the failure message made of the step name and [str(e)],
    and the traceback. A duration is put in a message only when the body
    returns. (The time the formatter prints before each message is the
    time of that record; the elapsed time is in none of them, and is to be
    had only by subtracting the time of the start record from that of a
    failure record.) *)
Lemma error_handler_failure_log_without_elapsed_time :
  map log_msg (Toy.failure_log 5000000)
  = [Text "🚀 Starting step: Data Preprocessing";
     Text "❌ Failed step: Data Preprocessing - Target column 'therapy_category' not found in dataset";
     Traceback "Full traceback:" Toy.boom]
  /\ map log_msg (Toy.failure_log 9000000) = map log_msg (Toy.failure_log 5000000)
  /\ map log_msg (success_log 5000000)
     = [Text "🚀 Starting step: Data Preprocessing"; Completed "Data Preprocessing" 5000000]
  /\ map log_msg (success_log 9000000)
     = [Text "🚀 Starting step: Data Preprocessing"; Completed "Data Preprocessing" 9000000].
Proof.
  repeat split; vm_compute; reflexivity.
Qed.

(** ** Which effects touch the trace of library calls *)

Section Frames.

Context {L : Libs}.

Lemma silent_appends {A} (m : M L A) : silent m -> appends m.
Proof. intros H w. exists []. rewrite app_nil_r. apply H. Qed.

Lemma silent_ret {A} (a : A) : silent (ret L a).
Proof. intros w. reflexivity. Qed.

Lemma silent_raise {A} (e : Exn) : silent (@raise L A e).
Proof. intros w. reflexivity. Qed.

Lemma silent_lift {A} (o : Outcome A) : silent (lift L o).
Proof. intros w. reflexivity. Qed.

Lemma silent_log lvl msg : silent (log L lvl msg).
Proof. intros w. reflexivity. Qed.

Lemma silent_now : silent (now L).
Proof. intros w. reflexivity. Qed.

Lemma silent_import env m : silent (import_module L env m).
Proof. intros w. unfold import_module. destruct (env m); reflexivity. Qed.

Lemma silent_mkdir_parent path : silent (mkdir_parent L path).
Proof.
  intros w. unfold mkdir_parent.
  destruct (is_file (w_fs w) (parent (parts path))); [reflexivity |].
  destruct (existsb _ _); reflexivity.
Qed.

Lemma silent_write_file site path c : silent (write_file L site path c).
Proof.
  intros w. unfold write_file.
  repeat match goal with |- context [if ?b then _ else _] => destruct b end; reflexivity.
Qed.

Lemma silent_read_file site path : silent (read_file L site path).
Proof. intros w. unfold read_file. destruct (_ !! _); reflexivity. Qed.

Lemma silent_tracking_request site ev : silent (tracking_request L site ev).
Proof. intros w. unfold tracking_request. destruct (tr_up _); reflexivity. Qed.

Lemma silent_bind {A B} (m : M L A) (k : A -> M L B) :
  silent m -> (forall a, silent (k a)) -> silent (bind L m k).
Proof.
  intros Hm Hk w. unfold bind. specialize (Hm w).
  destruct (m w) as [[a | e] w1]; cbn in *; [rewrite Hk |]; exact Hm.
Qed.

Lemma appends_bind {A B} (m : M L A) (k : A -> M L B) :
  appends m -> (forall a, appends (k a)) -> appends (bind L m k).
Proof.
  intros Hm Hk w. unfold bind. destruct (Hm w) as [r1 H1].
  destruct (m w) as [[a | e] w1]; cbn in *.
  - destruct (Hk a w1) as [r2 H2]. exists (r1 ++ r2).
    rewrite H2, H1, app_assoc. reflexivity.
  - exists r1. exact H1.
Qed.

Lemma appends_called c : appends (called L c).
Proof. intros w. exists [c]. reflexivity. Qed.

Lemma silent_try_except {A} (m : M L A) catches h :
  silent m -> (forall e, silent (h e)) -> silent (try_except L m catches h).
Proof.
  intros Hm Hh w. unfold try_except. specialize (Hm w).
  destruct (m w) as [[a | e] w1]; cbn in *; [exact Hm |].
  destruct (catches e); [rewrite Hh |]; exact Hm.
Qed.

(** [error_handler] adds log records only. *)
Lemma error_handler_calls {A} step_name (body : M L A) w :
  w_calls (snd (error_handler L step_name body w))
  = w_calls (snd (body (set_log (w_log w ++ [mkLog INFO (Text ("🚀 Starting step: " +:+ step_name))]) w))).
Proof.
  unfold error_handler, try_except, bind, log, now, raise, ret.
  cbv beta iota. cbn [set_log w_clock].
  destruct (body _) as [[a | e] w1]; cbn; [reflexivity |].
  destruct (is_Exception e); reflexivity.
Qed.

Lemma silent_error_handler {A} step_name (body : M L A) :
  silent body -> silent (error_handler L step_name body).
Proof. intros H w. rewrite error_handler_calls, H. reflexivity. Qed.

Lemma appends_error_handler {A} step_name (body : M L A) :
  appends body -> appends (error_handler L step_name body).
Proof.
  intros H w. rewrite error_handler_calls.
  destruct (H (set_log (w_log w ++ [mkLog INFO (Text ("🚀 Starting step: " +:+ step_name))]) w))
    as [rest Hrest].
  exists rest. exact Hrest.
Qed.

Lemma silent_validate_data_quality env df step_name :
  silent (validate_data_quality L env df step_name).
Proof.
  intros w.
  destruct (validate_data_quality_returns L env df step_name w) as (w' & Hrun & _ & Hc & _).
  rewrite Hrun. exact Hc.
Qed.

Lemma silent_to_csv df path : silent (to_csv L df path).
Proof. apply silent_write_file. Qed.

Lemma silent_json_dump j path : silent (json_dump L j path).
Proof. apply silent_write_file. Qed.

Lemma silent_pickle_dump o path : silent (pickle_dump L o path).
Proof. apply silent_write_file. Qed.

Lemma silent_read_csv path : silent (read_csv L path).
Proof.
  unfold read_csv. apply silent_bind; [apply silent_read_file |].
  intros [j | gz df | o]; try apply silent_raise.
  destruct (Bool.eqb _ _); [apply silent_ret |].
  destruct gz; apply silent_raise.
Qed.

Lemma silent_fitted_state sc : silent (fitted_state L sc).
Proof. destruct sc; [apply silent_ret | apply silent_raise]. Qed.

End Frames.

(** One step of a proof that a computation is silent. *)
Ltac silent_step :=
  first
    [ apply silent_ret | apply silent_raise | apply silent_lift | apply silent_log
    | apply silent_now | apply silent_import | apply silent_mkdir_parent
    | apply silent_to_csv | apply silent_json_dump | apply silent_pickle_dump
    | apply silent_read_csv | apply silent_write_file | apply silent_read_file
    | apply silent_tracking_request | apply silent_validate_data_quality
    | apply silent_fitted_state
    | apply silent_error_handler
    | apply silent_bind; [| intros ?]
    | apply silent_try_except; [| intros ?] ].

Ltac solve_silent := repeat silent_step.

Lemma silent_save_mock (L : Libs) sizes path : silent (save_mock L sizes path).
Proof. unfold save_mock. destruct sizes as [[s0 s1] s2]. solve_silent. Qed.

Lemma silent_save_split (L : Libs) env df path split_type meta :
  silent (save_split L env df path split_type meta).
Proof. unfold save_split. solve_silent. Qed.

(** ** Tier selection *)

Lemma full_tier_importable (env : Env) :
  full_tier env = true ->
  exists vp vn vs, env pandas = Some vp /\ env numpy = Some vn /\ env sklearn = Some vs.
Proof.
  unfold full_tier. intros H. apply andb_true_iff in H as [Hp Hs].
  destruct (available_pandas_importable env Hp) as [[vp Hvp] [vn Hvn]].
  destruct (available_sklearn_importable env Hs) as [vs Hvs].
  eauto 6.
Qed.

Lemma full_tier_same (env env' : Env) :
  env' pandas = env pandas -> env' numpy = env numpy -> env' sklearn = env sklearn ->
  full_tier env' = full_tier env.
Proof.
  intros Hp Hn Hs. unfold full_tier.
  rewrite !available_pandas, !available_sklearn, Hp, Hn, Hs. reflexivity.
Qed.

(** X17. The tier of the generate step. Whatever the environment, the
    body of [generate_synthetic_data] takes its full branch exactly when
    the registry reports pandas, numpy and scikit-learn available; in the
    degraded branch it calls no library, in the full branch its only
    library call is the one to [make_classification]. And the tracking
    client has no part in it: two environments in which the module loads
    and which agree on pandas, numpy and scikit-learn give the same tier
    and the same run of the step. *)
Theorem generate_tier_selection
    (L : Libs) (env env' : Env) (cfg : DataConfig) (path : string) (w : World L) :
  (full_tier env = true <->
     available (DEPENDENCIES env pandas) = true
     /\ available (DEPENDENCIES env numpy) = true
     /\ available (DEPENDENCIES env sklearn) = true)
  /\ (full_tier env = false ->
      w_calls (snd (generate_synthetic_data L env cfg path w)) = w_calls w)
  /\ (full_tier env = true ->
      w_calls (snd (generate_synthetic_data L env cfg path w))
      = w_calls w
        ++ [CallMakeClassification (n_samples cfg) (n_features cfg) (n_classes cfg)])
  /\ (fst (load_module L env w) = Return tt -> fst (load_module L env' w) = Return tt ->
      env' pandas = env pandas -> env' numpy = env numpy -> env' sklearn = env sklearn ->
      full_tier env' = full_tier env
      /\ generate_synthetic_data L env' cfg path w = generate_synthetic_data L env cfg path w).
Proof.
  split; [| split; [| split]].
  - unfold full_tier. rewrite available_numpy, andb_true_iff. tauto.
  - intros Hdeg. unfold generate_synthetic_data. rewrite Hdeg.
    apply silent_error_handler. solve_silent.
  - intros Hfull.
    destruct (full_tier_importable env Hfull) as (vp & vn & vs & Hp & Hn & Hs).
    unfold generate_synthetic_data. rewrite Hfull, error_handler_calls.
    unfold import_module. rewrite Hp, Hn, Hs.
    match goal with
    | |- context [bind L (called L ?c) ?k] =>
        assert (Hk : silent (k tt)) by (solve_silent; destruct a; solve_silent);
        set (K := k) in *
    end.
    unfold bind at 1 2 3 4. cbn [ret called].
    rewrite Hk. reflexivity.
  - intros _ _ Hp Hn Hs. split; [apply full_tier_same; assumption |].
    unfold generate_synthetic_data, validate_data_quality, import_module.
    rewrite (full_tier_same env env' Hp Hn Hs).
    rewrite !(available_pandas env'), Hp, Hn, Hs, <- !(available_pandas env).
    reflexivity.
Qed.

Lemma generate_tier_selection_witness :
  full_tier Toy.env_no_mlflow = full_tier Toy.env_all
  /\ generate_synthetic_data Toy.libs Toy.env_no_mlflow DATA_CONFIG_default "out/raw/data.csv"
       Toy.world_empty
     = generate_synthetic_data Toy.libs Toy.env_all DATA_CONFIG_default "out/raw/data.csv"
         Toy.world_empty.
Proof.
  destruct (generate_tier_selection Toy.libs Toy.env_all Toy.env_no_mlflow DATA_CONFIG_default
              "out/raw/data.csv" Toy.world_empty) as (_ & _ & _ & Hsame).
  apply Hsame; reflexivity.
Defined.

(** C4: the code does not do this. The tier of the train step does not
    follow the capabilities the step requires. With pandas and
    scikit-learn available and only the tracking client missing,
    [train_model] does not run its computation: it raises at
    [import mlflow] and leaves the world untouched, while the same call
    with the tracking client installed fits the model. With pandas missing
    it does not degrade either: it raises at [import pandas]. And the
    orchestration SDK gates every step: with everything installed but kfp,
    so that the generate step would take its full branch, the module does
    not load ([@dsl.pipeline] raises [NameError]) and no step runs in any
    tier. *)
Theorem train_tier_follows_tracking_client :
  available (DEPENDENCIES Toy.env_no_mlflow pandas) = true
  /\ available (DEPENDENCIES Toy.env_no_mlflow sklearn) = true
  /\ train_model Toy.libs Toy.env_no_mlflow "data/train.csv" "data/model.pkl"
       "data/metrics.json" 100 10 42 (Toy.world_with_train Toy.tracker_up)
     = (Raise (import_error mlflow), Toy.world_with_train Toy.tracker_up)
  /\ (exists X accuracy,
        w_calls (snd (train_model Toy.libs Toy.env_all "data/train.csv" "data/model.pkl"
                        "data/metrics.json" 100 10 42 (Toy.world_with_train Toy.tracker_up)))
        = [CallModelFit X; CallModelPredict X]
        /\ fst (train_model Toy.libs Toy.env_all "data/train.csv" "data/model.pkl"
                  "data/metrics.json" 100 10 42 (Toy.world_with_train Toy.tracker_up))
           = Return (accuracy, "run-0"))
  /\ train_model Toy.libs Toy.env_kfp_only "data/train.csv" "data/model.pkl"
       "data/metrics.json" 100 10 42 (Toy.world_with_train Toy.tracker_up)
     = (Raise (import_error pandas), Toy.world_with_train Toy.tracker_up)
  /\ full_tier env_no_kfp = true
  /\ fst (load_module Toy.libs env_no_kfp Toy.world_empty)
     = Raise (mkExn NameError "name 'dsl' is not defined" "@dsl.pipeline").
Proof.
  split; [reflexivity |]. split; [reflexivity |]. split; [reflexivity |].
  split; [eexists; eexists; split; vm_compute; reflexivity |].
  split; [reflexivity |]. split; vm_compute; reflexivity.
Qed.

(** ** The feature count of the full-tier generate step *)

Lemma array_put_length i (values : list float) rows :
  length values = length rows -> length (array_put i values rows) = length rows.
Proof.
  revert rows. induction values as [| v values IH]; intros [| r rows] Hlen;
    try discriminate; [reflexivity |].
  cbn. f_equal. apply IH. cbn in Hlen. congruence.
Qed.

(** A round of the scaling loop on a column the array has: the array
    keeps its shape. *)
Lemma scale_column_in_range (X : Matrix) i lo hi :
  0 <= i < m_ncols X -> m_rows X <> [] ->
  exists X', scale_column X i lo hi = Return X'
             /\ m_ncols X' = m_ncols X /\ m_rows X' <> [].
Proof.
  intros Hi Hrows. unfold scale_column, array_column.
  replace ((0 <=? i) && (i <? m_ncols X)) with true
    by (symmetry; apply andb_true_iff; split; [apply Z.leb_le | apply Z.ltb_lt]; lia).
  cbn [outcome_bind].
  destruct (m_rows X) as [| r rows] eqn:Hr; [congruence |].
  cbn [map array_min array_max outcome_bind].
  eexists. split; [reflexivity |]. split; [reflexivity |].
  cbn [array_set_column m_rows]. rewrite Hr. cbn. discriminate.
Qed.


Lemma scale_features_fits (names : list string) : forall i (X : Matrix),
  0 <= i -> i + Z.of_nat (length names) <= m_ncols X -> m_rows X <> [] ->
  exists X', scale_features names i X = Return X'
             /\ m_ncols X' = m_ncols X /\ m_rows X' <> [].
Proof.
  induction names as [| feature rest IH]; intros i X H0 Hfit Hrows.
  - exists X. repeat split; auto.
  - cbn [scale_features]. cbn [length] in Hfit.
    destruct (dict_get feature feature_ranges) as [[lo hi] |].
    + destruct (scale_column_in_range X i lo hi) as (X1 & H1 & Hc & Hr); [lia | exact Hrows |].
      rewrite H1. cbn [outcome_bind].
      destruct (IH (i + 1) X1) as (X' & H' & Hc' & Hr'); [lia | lia | exact Hr |].
      exists X'. repeat split; [exact H' | congruence | exact Hr'].
    + apply IH; [lia | lia | exact Hrows].
Qed.




(** The scaling loop of the step on an array of ten columns or more. *)
Lemma scale_ten_features_fits (X : Matrix) :
  10 <= m_ncols X -> m_rows X <> [] ->
  exists X', scale_features feature_names 0 X = Return X'
             /\ m_ncols X' = m_ncols X /\ m_rows X' <> [].
Proof.
  intros Hge Hrows. apply scale_features_fits; [lia | cbn; lia | exact Hrows].
Qed.

(** Laws of [bind] used to run a step by rewriting. *)
Lemma bind_ret (L : Libs) A B (a : A) (k : A -> M L B) : bind L (ret L a) k = k a.
Proof. reflexivity. Qed.

Lemma bind_lift_Return (L : Libs) A B (a : A) (k : A -> M L B) :
  bind L (lift L (Return a)) k = k a.
Proof. reflexivity. Qed.

Lemma bind_lift_Raise (L : Libs) A B (e : Exn) (k : A -> M L B) (w : World L) :
  bind L (lift L (Raise e)) k w = (Raise e, w).
Proof. reflexivity. Qed.

Lemma bind_called (L : Libs) B (c : LibCall) (k : unit -> M L B) (w : World L) :
  bind L (called L c) k w = k tt (set_calls L (w_calls w ++ [c]) w).
Proof. reflexivity. Qed.








(** ** The scaler in the preprocess step *)

Lemma bind_Return_inv (L : Libs) A B (m : M L A) (k : A -> M L B) w b w' :
  bind L m k w = (Return b, w') ->
  exists a w1, m w = (Return a, w1) /\ k a w1 = (Return b, w').
Proof.
  unfold bind. destruct (m w) as [[a | e] w1]; [eauto | discriminate].
Qed.

Lemma silent_run (L : Libs) A (m : M L A) w o w' :
  silent m -> m w = (o, w') -> w_calls w' = w_calls w.
Proof. intros Hs Hm. specialize (Hs w). rewrite Hm in Hs. exact Hs. Qed.

Lemma fit_transform_inv (L : Libs) (sc sc' : Scaler L) X out w w' :
  fit_transform L sc X w = (Return (sc', out), w') ->
  exists fitted,
    scaler_fit L X = Return fitted /\ sc' = Some fitted
    /\ scaler_apply L fitted X = Return out
    /\ w_calls w' = w_calls w ++ [CallScalerFit X] /\ w_fs w' = w_fs w.
Proof.
  unfold fit_transform. rewrite bind_called.
  destruct (scaler_fit L X) as [fitted | e] eqn:Hfit;
    [| rewrite bind_lift_Raise; discriminate].
  rewrite bind_lift_Return.
  destruct (scaler_apply L fitted X) as [o | e] eqn:Happ;
    [| rewrite bind_lift_Raise; discriminate].
  rewrite bind_lift_Return. intros H. inversion H; subst. exists fitted.
  split; [reflexivity |]. split; [reflexivity |]. split; [exact Happ |].
  split; reflexivity.
Qed.

(** [transform] hands back the scaler it was given. *)
Lemma transform_inv (L : Libs) (sc sc' : Scaler L) X out w w' :
  transform L sc X w = (Return (sc', out), w') ->
  sc' = sc
  /\ (exists fitted, sc = Some fitted /\ scaler_apply L fitted X = Return out)
  /\ w_calls w' = w_calls w ++ [CallScalerTransform X] /\ w_fs w' = w_fs w.
Proof.
  unfold transform. rewrite bind_called.
  destruct sc as [fitted |]; [| discriminate].
  destruct (scaler_apply L fitted X) as [o | e] eqn:Happ;
    [| rewrite bind_lift_Raise; discriminate].
  rewrite bind_lift_Return. intros H. inversion H; subst.
  split; [reflexivity |]. split; [eauto |]. split; reflexivity.
Qed.

Lemma write_file_inv (L : Libs) site path c a (w w' : World L) :
  write_file L site path c w = (Return a, w') ->
  fs_files (w_fs w') !! parts path = Some c /\ w_calls w' = w_calls w.
Proof.
  unfold write_file.
  repeat match goal with |- context [if ?b then _ else _] => destruct b end;
    try discriminate.
  intros H. inversion H; subst. cbn. split; [apply lookup_insert_eq | reflexivity].
Qed.

Lemma fitted_state_inv (L : Libs) (sc : Scaler L) fitted (w w' : World L) :
  fitted_state L sc w = (Return fitted, w') -> sc = Some fitted /\ w' = w.
Proof.
  destruct sc as [p |]; [| discriminate]. intros H. inversion H; subst. auto.
Qed.

Ltac solve_silent_cases :=
  repeat first
    [ silent_step
    | match goal with |- context [if ?b then _ else _] => destruct b end ].

(** What one finished statement of a step says about the worlds before
    and after it. *)
Ltac digest Hm :=
  lazymatch type of Hm with
  | lift _ _ _ = _ => unfold lift in Hm; injection Hm as Hm ?; subst
  | ret _ _ _ = _ => unfold ret in Hm; injection Hm as ? ?; subst
  | called _ _ _ = _ => unfold called in Hm; injection Hm as ? ?; subst
  | log _ _ _ _ = _ => unfold log in Hm; injection Hm as ? ?; subst
  | now _ _ = _ => unfold now in Hm; injection Hm as ? ?; subst
  | (if PrimFloat.eqb ?a ?b then _ else _) _ = _ =>
      destruct (PrimFloat.eqb a b);
      [discriminate Hm | unfold ret in Hm; injection Hm as ? ?; subst]
  | fit_transform _ _ _ _ = _ =>
      let f := fresh "fitted" in
      apply fit_transform_inv in Hm as (f & ? & ? & ? & ? & ?); subst
  | transform _ _ _ _ = _ =>
      let Hsame := fresh "Hsame" in
      apply transform_inv in Hm as (? & (? & Hsame & ?) & ? & ?); subst;
      injection Hsame as Hsame; subst
  | fitted_state _ _ _ = _ =>
      let Hsame := fresh "Hsame" in
      apply fitted_state_inv in Hm as [Hsame ?]; subst;
      injection Hsame as Hsame; subst
  | pickle_dump _ _ _ _ = _ => apply write_file_inv in Hm as [? ?]
  | _ => apply silent_run in Hm; [| solve [solve_silent_cases]]
  end.

(** Take the first statement off a run that returned. *)
Ltac step H :=
  let a := fresh "a" in
  let w := fresh "w" in
  let Hm := fresh "Hm" in
  apply bind_Return_inv in H as (a & w & Hm & H);
  repeat match type of H with
         | context [let '(_, _) := ?p in _] => destruct p
         end;
  digest Hm.

(** C9, as the code has it. In every full-tier run of the three-split
    [preprocess_data] that returns, the library calls are, in this order:
    the two splits, one [fit] whose argument is the train part of the
    second split, one [transform] of the validation part and one of the
    test part. Both transforms use the state that this one [fit]
    computed, and that same state is what the step pickles at the scaler
    path. A [transform] that returns hands back the scaler object it was
    given. *)
Theorem scaler_fitted_once_on_train
    (L : Libs) (env : Env) (cfg : DataConfig)
    (input_path train_path test_path validation_path scaler_p : string)
    (w w' : World L) (sizes : Z * Z * Z) :
  full_tier env = true ->
  preprocess_data_first L env cfg input_path train_path test_path validation_path scaler_p w
  = (Return sizes, w') ->
  (exists X y X_temp X_test y_temp y_test X_train X_val y_train y_val fitted,
     train_test_split L X y (test_size cfg) (random_state cfg)
     = Return (X_temp, X_test, y_temp, y_test)
     /\ train_test_split L X_temp y_temp
          (validation_size cfg / (1 - test_size cfg))%float (random_state cfg)
        = Return (X_train, X_val, y_train, y_val)
     /\ w_calls w'
        = w_calls w
          ++ [CallTrainTestSplit (len_df X); CallTrainTestSplit (len_df X_temp);
              CallScalerFit X_train; CallScalerTransform X_val; CallScalerTransform X_test]
     /\ scaler_fit L X_train = Return fitted
     /\ (exists train_scaled val_scaled test_scaled,
           scaler_apply L fitted X_train = Return train_scaled
           /\ scaler_apply L fitted X_val = Return val_scaled
           /\ scaler_apply L fitted X_test = Return test_scaled)
     /\ exists names metadata,
          fs_files (w_fs w') !! parts scaler_p
          = Some (FPickle (PScalerData L fitted names metadata)))
  /\ (forall (scaler scaler' : Scaler L) X' out w1 w2,
        transform L scaler X' w1 = (Return (scaler', out), w2) -> scaler' = scaler).
Proof.
  intros Hfull H. split.
  2: { intros scaler scaler' X' out w1 w2 Ht. apply transform_inv in Ht. tauto. }
  unfold preprocess_data_first in H.
  rewrite Hfull, error_handler_outcome in H. cbv zeta in H.
  match type of H with
  | context [match ?b ?w1 with _ => _ end] =>
      destruct (b w1) as [[r | e] w2] eqn:Hbody
  end; [| discriminate].
  inversion H; subst; clear H.
  repeat step Hbody.
  unfold ret in Hbody. injection Hbody as Hsizes Hw2. subst.
  do 11 eexists.
  split; [eassumption |]. split; [eassumption |].
  split.
  { cbn [w_calls set_log set_calls].
    repeat match goal with
           | Hc : w_calls ?x = _ |- context [w_calls ?x] =>
               rewrite Hc; cbn [w_calls set_log set_calls]
           end.
    rewrite <- !app_assoc. reflexivity. }
  split; [eassumption |].
  split.
  { do 3 eexists. split; [eassumption |]. split; eassumption. }
  do 2 eexists. cbn [w_fs set_log]. eassumption.
Qed.

Lemma scaler_fitted_once_on_train_witness :
  exists X_train fitted names metadata,
    In (CallScalerFit X_train)
      (w_calls (snd (preprocess_data_first Toy.libs Toy.env_all DATA_CONFIG_default
                       "out/raw/data.csv" "out/processed/train.csv"
                       "out/processed/test.csv" "out/processed/validation.csv"
                       "out/processed/scaler.pkl" Toy.world_with_raw)))
    /\ scaler_fit Toy.libs X_train = Return fitted
    /\ fs_files (w_fs (snd (preprocess_data_first Toy.libs Toy.env_all DATA_CONFIG_default
                              "out/raw/data.csv" "out/processed/train.csv"
                              "out/processed/test.csv" "out/processed/validation.csv"
                              "out/processed/scaler.pkl" Toy.world_with_raw)))
         !! parts "out/processed/scaler.pkl"
       = Some (FPickle (PScalerData Toy.libs fitted names metadata)).
Proof.
  assert (Hreturns : fst (preprocess_data_first Toy.libs Toy.env_all DATA_CONFIG_default
                            "out/raw/data.csv" "out/processed/train.csv"
                            "out/processed/test.csv" "out/processed/validation.csv"
                            "out/processed/scaler.pkl" Toy.world_with_raw)
                     = Return (14, 2, 4)) by (vm_compute; reflexivity).
  destruct (preprocess_data_first Toy.libs Toy.env_all DATA_CONFIG_default
              "out/raw/data.csv" "out/processed/train.csv" "out/processed/test.csv"
              "out/processed/validation.csv" "out/processed/scaler.pkl" Toy.world_with_raw)
    as [o w'] eqn:Hrun.
  cbn [fst snd] in *. subst o.
  destruct (scaler_fitted_once_on_train Toy.libs Toy.env_all DATA_CONFIG_default
              "out/raw/data.csv" "out/processed/train.csv" "out/processed/test.csv"
              "out/processed/validation.csv" "out/processed/scaler.pkl" Toy.world_with_raw
              w' (14, 2, 4) eq_refl Hrun)
    as ((X & y & X_temp & X_test & y_temp & y_test & X_train & X_val & y_train & y_val
         & fitted & _ & _ & Hcalls & Hfit & _ & names & metadata & Hfile) & _).
  exists X_train, fitted, names, metadata.
  split; [| split; [exact Hfit | exact Hfile]].
  rewrite Hcalls. apply in_or_app. right. right. right. left. reflexivity.
Defined.

(** C9, as stated, fails in degraded tier: a preprocess run there fits no
    scaler at all. With neither pandas nor scikit-learn the three-split
    [preprocess_data] returns its fixed sizes without a single library
    call, and what it leaves at the scaler path is the mock JSON object. *)
Lemma degraded_preprocess_fits_no_scaler :
  full_tier Toy.env_kfp_only = false
  /\ fst (preprocess_data_first Toy.libs Toy.env_kfp_only DATA_CONFIG_default
            "out/raw/data.csv" "out/processed/train.csv" "out/processed/test.csv"
            "out/processed/validation.csv" "out/processed/scaler.pkl" Toy.world_empty)
     = Return (800, 100, 100)
  /\ w_calls (snd (preprocess_data_first Toy.libs Toy.env_kfp_only DATA_CONFIG_default
                     "out/raw/data.csv" "out/processed/train.csv" "out/processed/test.csv"
                     "out/processed/validation.csv" "out/processed/scaler.pkl"
                     Toy.world_empty))
     = []
  /\ fs_files (w_fs (snd (preprocess_data_first Toy.libs Toy.env_kfp_only DATA_CONFIG_default
                            "out/raw/data.csv" "out/processed/train.csv"
                            "out/processed/test.csv" "out/processed/validation.csv"
                            "out/processed/scaler.pkl" Toy.world_empty)))
       !! parts "out/processed/scaler.pkl"
     = Some (FJson (JObj [("mock", JBool true); ("samples", JInt 100)])).
Proof.
  split; [reflexivity |]. split; [vm_compute; reflexivity |].
  split; vm_compute; reflexivity.
Qed.

(** ** Runs in which libraries are missing *)

(** Without pandas the preprocess step in effect raises at its first
    import, whatever the registry says. *)
Lemma preprocess_data_needs_pandas
    (L : Libs) (env : Env) (cfg : DataConfig) (a b c d : string) (w : World L) :
  env pandas = None ->
  preprocess_data L env a b c d w = (Raise (import_error pandas), w).
Proof.
  intros Hp. unfold preprocess_data, import_module. rewrite Hp. reflexivity.
Qed.

(** Without pandas a pipeline run never gets past the generate step. *)
Lemma pipeline_without_pandas_stops
    (L : Libs) (env : Env) (cfg : DataConfig) (P : Paths) (n d r : Z) (w : World L) :
  env pandas = None ->
  fst (fst (music_therapy_pipeline L env cfg P n d r w)) = started
  \/ fst (fst (music_therapy_pipeline L env cfg P n d r w)) = generated.
Proof.
  intros Hp. unfold music_therapy_pipeline.
  destruct (generate_synthetic_data L env cfg (output_data_path P) w) as [[v | e] w1];
    [| left; reflexivity].
  rewrite (preprocess_data_needs_pandas L env cfg _ _ _ _ w1 Hp). right. reflexivity.
Qed.

(** Without the tracking client the train step raises at [import mlflow]
    when pandas is there, before it reads or computes anything. *)
Lemma train_model_needs_mlflow
    (L : Libs) (env : Env) (a b c : string) (n d r : Z) (w : World L) v :
  env pandas = Some v -> env mlflow = None ->
  train_model L env a b c n d r w = (Raise (import_error mlflow), w).
Proof.
  intros Hp Hm. unfold train_model, import_module. rewrite Hp, Hm. reflexivity.
Qed.

(** C1: the code does not do this. With neither pandas nor scikit-learn
    installed (the orchestration SDK alone), the generate step writes its
    placeholder, and the run then ends in state [generated]: the preprocess
    step in effect raises [ImportError] at [import pandas], so no split,
    model, metrics or evaluation file is written. With nothing installed
    the module does not even load: [@dsl.pipeline] raises [NameError]. *)
Theorem degraded_run_stops_after_generate :
  full_tier Toy.env_kfp_only = false
  /\ fst (music_therapy_pipeline Toy.libs Toy.env_kfp_only DATA_CONFIG_default Toy.paths
            100 10 42 Toy.world_empty)
     = (generated, Some (import_error pandas))
  /\ (let fs := w_fs (snd (music_therapy_pipeline Toy.libs Toy.env_kfp_only
                             DATA_CONFIG_default Toy.paths 100 10 42 Toy.world_empty)) in
      is_file fs (parts (output_data_path Toy.paths)) = true
      /\ is_file fs (parts (train_data_path Toy.paths)) = false
      /\ is_file fs (parts (test_data_path Toy.paths)) = false
      /\ is_file fs (parts (scaler_path Toy.paths)) = false
      /\ is_file fs (parts (model_path Toy.paths)) = false
      /\ is_file fs (parts (metrics_path Toy.paths)) = false
      /\ is_file fs (parts (evaluation_path Toy.paths)) = false)
  /\ fst (load_module Toy.libs Toy.env_none Toy.world_empty)
     = Raise (mkExn NameError "name 'dsl' is not defined" "@dsl.pipeline").
Proof.
  split; [reflexivity |]. split; [vm_compute; reflexivity |].
  split; [| vm_compute; reflexivity].
  cbv zeta. repeat split; vm_compute; reflexivity.
Qed.

(** C2: the code does not do this. The [preprocess_data] in effect takes
    one input path and three output paths (train, test, scaler), returns a
    pair, and has no degraded branch: where the three-split definition it
    replaces returns (800, 100, 100), it raises [ImportError]. In full tier
    it writes a train and a test table and the scaler, and returns two
    sizes. *)
Theorem preprocess_in_effect_has_two_splits :
  fst (preprocess_data_first Toy.libs Toy.env_kfp_only DATA_CONFIG_default
         "out/raw/data.csv" "out/processed/train.csv" "out/processed/test.csv"
         "out/processed/validation.csv" "out/processed/scaler.pkl" Toy.world_empty)
  = Return (800, 100, 100)
  /\ preprocess_data Toy.libs Toy.env_kfp_only "out/raw/data.csv" "out/processed/train.csv"
       "out/processed/test.csv" "out/processed/scaler.pkl" Toy.world_empty
     = (Raise (import_error pandas), Toy.world_empty)
  /\ fst (preprocess_data Toy.libs Toy.env_all "data/train.csv" "data/train_scaled.csv"
            "data/test_scaled.csv" "data/scaler.pkl" (Toy.world_with_train Toy.tracker_up))
     = Return (3, 1).
Proof.
  split; [vm_compute; reflexivity |]. split; [reflexivity |]. vm_compute; reflexivity.
Qed.

(** C3: the code does not do this. With pandas and scikit-learn
    installed, [train_model] depends on the tracking side at every turn:
    without the client it raises [ImportError] at [import mlflow]; with
    the client and a server that does not answer it raises the client's
    exception at [mlflow.set_experiment]; and the run identifier it returns
    when all is well is the one the server made up. *)
Theorem train_model_depends_on_tracking :
  train_model Toy.libs Toy.env_no_mlflow "data/train.csv" "data/model.pkl"
    "data/metrics.json" 100 10 42 (Toy.world_with_train Toy.tracker_up)
  = (Raise (import_error mlflow), Toy.world_with_train Toy.tracker_up)
  /\ train_model Toy.libs Toy.env_all "data/train.csv" "data/model.pkl"
       "data/metrics.json" 100 10 42 (Toy.world_with_train Toy.tracker_down)
     = (Raise (mkExn MlflowException "API request failed: connection refused"
                 "mlflow.set_experiment"),
        Toy.world_with_train Toy.tracker_down)
  /\ (exists accuracy,
        fst (train_model Toy.libs Toy.env_all "data/train.csv" "data/model.pkl"
               "data/metrics.json" 100 10 42 (Toy.world_with_train Toy.tracker_up))
        = Return (accuracy, "run-0"))
  /\ (exists accuracy,
        fst (train_model Toy.libs Toy.env_all "data/train.csv" "data/model.pkl"
               "data/metrics.json" 100 10 42
               (Toy.world_with_train (mkTracking true 7 [])))
        = Return (accuracy, "run-7")).
Proof.
  split; [reflexivity |]. split; [reflexivity |].
  split; eexists; vm_compute; reflexivity.
Qed.

(** C8: the code does not do this. [train_model] opens the model path
    without creating its directory: with everything installed and the
    tracker answering, a model path in a directory that does not exist
    makes the step raise [FileNotFoundError] after the model was fitted,
    and neither model nor metrics file is written. The generate step,
    which creates the directory first, writes below a directory that does
    not exist yet. *)
Theorem train_model_write_without_mkdir :
  is_dir (w_fs (Toy.world_with_train Toy.tracker_up)) ["out"; "models"] = false
  /\ fst (train_model Toy.libs Toy.env_all "data/train.csv" "out/models/model.pkl"
            "out/models/metrics.json" 100 10 42 (Toy.world_with_train Toy.tracker_up))
     = Raise (mkExn FileNotFoundError "No such file or directory" "open")
  /\ (let w' := snd (train_model Toy.libs Toy.env_all "data/train.csv" "out/models/model.pkl"
                       "out/models/metrics.json" 100 10 42
                       (Toy.world_with_train Toy.tracker_up)) in
      is_file (w_fs w') ["out"; "models"; "model.pkl"] = false
      /\ is_file (w_fs w') ["out"; "models"; "metrics.json"] = false
      /\ exists X, w_calls w' = [CallModelFit X; CallModelPredict X])
  /\ (let r := generate_synthetic_data Toy.libs Toy.env_all DATA_CONFIG_default
                 "out/raw/data.csv" Toy.world_empty in
      is_dir (w_fs Toy.world_empty) ["out"; "raw"] = false
      /\ fst r = Return (1000, 10)
      /\ is_dir (w_fs (snd r)) ["out"; "raw"] = true
      /\ is_file (w_fs (snd r)) ["out"; "raw"; "data.csv"] = true).
Proof.
  split; [vm_compute; reflexivity |]. split; [vm_compute; reflexivity |].
  split; cbv zeta.
  - split; [vm_compute; reflexivity |]. split; [vm_compute; reflexivity |].
    eexists. vm_compute. reflexivity.
  - repeat split; vm_compute; reflexivity.
Qed.

(* ===================================================================== *)
(** * Failure modes, frames and complete runs *)
(* ===================================================================== *)

(* ===================================================================== *)
(** * Further properties of the module *)
(* ===================================================================== *)

(** ** The registry after detection *)

Lemma available_mlflow (env : Env) :
  available (DEPENDENCIES env mlflow)
  = match env mlflow with Some _ => true | None => false end.
Proof.
  unfold DEPENDENCIES, check_and_import_dependencies.
  destruct (env mlflow), (env pandas), (env numpy), (env sklearn), (env kfp); reflexivity.
Qed.

(** X1. What [check_and_import_dependencies] leaves in the registry, for
    every environment and every entry: the required version floor is the
    initial one; an entry has a version exactly when it is marked
    available, and the version is then the one the library reports; the
    entries of mlflow, scikit-learn and kfp are available exactly when the
    library imports; pandas and numpy are marked together, available
    exactly when both import. *)
Theorem detection_registry_invariants (env : Env) (m : PyModule) :
  required (DEPENDENCIES env m) = required (DEPENDENCIES_initial m)
  /\ (available (DEPENDENCIES env m) = true <-> version (DEPENDENCIES env m) <> None)
  /\ (available (DEPENDENCIES env m) = true -> version (DEPENDENCIES env m) = env m)
  /\ match m with
     | pandas | numpy =>
         available (DEPENDENCIES env m) = true <-> env pandas <> None /\ env numpy <> None
     | _ => available (DEPENDENCIES env m) = true <-> env m <> None
     end.
Proof.
  unfold DEPENDENCIES, check_and_import_dependencies.
  destruct m;
    destruct (env mlflow), (env pandas), (env numpy), (env sklearn), (env kfp);
    cbn; repeat split; intros; try discriminate; try congruence;
    try (intuition congruence).
Qed.

(** ** The step executor on any outcome *)

(** X2. [error_handler] is transparent: the wrapped body's outcome, a
    value or an exception, is the outcome of the whole block, and file
    system, tracking server and library trace are left as the body left
    them; the block only adds log records. When the body returns, the
    one record added after it carries the time the body took. *)
Theorem error_handler_transparent
    (L : Libs) (A : Type) (step_name : string) (body : M L A) (w : World L) :
  let started :=
    set_log (w_log w ++ [mkLog INFO (Text ("🚀 Starting step: " +:+ step_name))]) w in
  let inner := body started in
  let outer := error_handler L step_name body w in
  fst outer = fst inner
  /\ w_fs (snd outer) = w_fs (snd inner)
  /\ w_tracking (snd outer) = w_tracking (snd inner)
  /\ w_calls (snd outer) = w_calls (snd inner)
  /\ (exists added, w_log (snd outer) = w_log (snd inner) ++ added)
  /\ (forall a, fst inner = Return a ->
      w_log (snd outer)
      = w_log (snd inner)
        ++ [mkLog INFO (Completed step_name (w_clock (snd inner) - w_clock w))]).
Proof.
  cbv zeta. rewrite error_handler_outcome. cbv zeta.
  destruct (body _) as [[a | e] w2]; cbn [fst snd set_log w_fs w_tracking w_calls w_clock w_log].
  - repeat split; eauto.
  - repeat split; eauto. intros a H. discriminate.
Qed.

(** ** The quality gate's effects *)

(** X3. The quality gate only logs. It leaves file system, tracking
    server and library trace alone, and adds to the log, in this
    order: the start record, then (with pandas available) the status line
    and, exactly when the issue list is non-empty, one WARNING record that
    lists the issues, then the completion record. *)
Theorem quality_gate_only_logs
    (L : Libs) (env : Env) (df : DataFrame) (step_name : string) (w : World L) :
  let w' := snd (validate_data_quality L env df step_name w) in
  let label := step_name +:+ " - Data Quality Validation" in
  w_fs w' = w_fs w /\ w_tracking w' = w_tracking w /\ w_calls w' = w_calls w
  /\ exists duration,
     w_log w'
     = w_log w
       ++ [mkLog INFO (Text ("🚀 Starting step: " +:+ label))]
       ++ (if available (DEPENDENCIES env pandas) then
             mkLog INFO (Text ("Data quality check - Status: " +:+ status_of (issues_of df)))
             :: match issues_of df with
                | [] => []
                | _ => [mkLog WARNING
                          (Text ("Data quality issues: " +:+ join ", " (issues_of df)))]
                end
           else [])
       ++ [mkLog INFO (Completed label duration)].
Proof.
  cbv zeta. unfold validate_data_quality. rewrite error_handler_outcome. cbv zeta.
  destruct (available (DEPENDENCIES env pandas)) eqn:Hav; cbn [negb].
  - destruct (available_pandas_importable env Hav) as [[vp Hp] [vn Hn]].
    unfold import_module. rewrite Hp, Hn, !bind_ret. unfold issues_of.
    destruct (0 <? count_missing df), (0 <? count_duplicates df), (len_df df <? 100);
      cbn; rewrite <- ?app_assoc; repeat split; try reflexivity; eexists; reflexivity.
  - cbn. rewrite <- ?app_assoc. repeat split; try reflexivity. eexists. reflexivity.
Qed.

(** ** What a computation leaves alone *)

Section Keeps.

Context {L : Libs} {X : Type} (f : World L -> X).

Lemma keeps_ret {A} (a : A) : keeps f (ret L a).
Proof. intros w. reflexivity. Qed.

Lemma keeps_raise {A} (e : Exn) : keeps f (@raise L A e).
Proof. intros w. reflexivity. Qed.

Lemma keeps_lift {A} (o : Outcome A) : keeps f (lift L o).
Proof. intros w. reflexivity. Qed.

Lemma keeps_now : keeps f (now L).
Proof. intros w. reflexivity. Qed.

Lemma keeps_import env m : keeps f (import_module L env m).
Proof. intros w. unfold import_module. destruct (env m); reflexivity. Qed.

Lemma keeps_read_file site path : keeps f (read_file L site path).
Proof. intros w. unfold read_file. destruct (_ !! _); reflexivity. Qed.

Lemma keeps_bind {A B} (m : M L A) (k : A -> M L B) :
  keeps f m -> (forall a, keeps f (k a)) -> keeps f (bind L m k).
Proof.
  intros Hm Hk w. unfold bind. specialize (Hm w).
  destruct (m w) as [[a | e] w1]; cbn in *; [rewrite Hk |]; exact Hm.
Qed.

Lemma keeps_try_except {A} (m : M L A) catches h :
  keeps f m -> (forall e, keeps f (h e)) -> keeps f (try_except L m catches h).
Proof.
  intros Hm Hh w. unfold try_except. specialize (Hm w).
  destruct (m w) as [[a | e] w1]; cbn in *; [exact Hm |].
  destruct (catches e); [rewrite Hh |]; exact Hm.
Qed.

Lemma keeps_run {A} (m : M L A) w o w' : keeps f m -> m w = (o, w') -> f w' = f w.
Proof. intros Hk Hm. specialize (Hk w). rewrite Hm in Hk. exact Hk. Qed.

Lemma keeps_log lvl msg : ignores_log f -> keeps f (log L lvl msg).
Proof. intros H w. apply H. Qed.

Lemma keeps_called c : ignores_calls f -> keeps f (called L c).
Proof. intros H w. apply H. Qed.

Lemma keeps_mkdir_parent path : ignores_fs f -> keeps f (mkdir_parent L path).
Proof.
  intros H w. unfold mkdir_parent.
  destruct (is_file (w_fs w) (parent (parts path))); [reflexivity |].
  destruct (existsb _ _); [reflexivity | apply H].
Qed.

Lemma keeps_write_file site path c : ignores_fs f -> keeps f (write_file L site path c).
Proof.
  intros H w. unfold write_file.
  repeat match goal with |- context [if ?b then _ else _] => destruct b end;
    try reflexivity.
  apply H.
Qed.

Lemma keeps_tracking_request site ev : ignores_tracking f -> keeps f (tracking_request L site ev).
Proof. intros H w. unfold tracking_request. destruct (tr_up _); [apply H | reflexivity]. Qed.

Lemma keeps_start_run : ignores_tracking f -> keeps f (mlflow_start_run L).
Proof. intros H w. unfold mlflow_start_run. destruct (tr_up _); [apply H | reflexivity]. Qed.

Lemma keeps_error_handler {A} step_name (body : M L A) :
  ignores_log f -> keeps f body -> keeps f (error_handler L step_name body).
Proof.
  intros Hlog Hbody w. rewrite error_handler_outcome. cbv zeta.
  specialize (Hbody (set_log (w_log w ++ [mkLog INFO (Text ("🚀 Starting step: " +:+ step_name))]) w)).
  destruct (body _) as [[a | e] w2]; cbn [snd] in *; rewrite Hlog, Hbody; apply Hlog.
Qed.

Lemma keeps_with_run {A} (body : string -> M L A) :
  ignores_tracking f -> (forall rid, keeps f (body rid)) -> keeps f (with_run L body).
Proof.
  intros Ht Hbody w. unfold with_run, bind.
  pose proof (keeps_start_run Ht w) as Hs.
  destruct (mlflow_start_run L w) as [[rid | e] w1]; cbn [snd] in *; [| exact Hs].
  pose proof (Hbody rid w1) as Hb.
  destruct (body rid w1) as [[a | e] w2]; cbn [snd] in *.
  - pose proof (keeps_tracking_request "mlflow.end_run" (TEndRun rid true) Ht w2) as He.
    destruct (tracking_request L "mlflow.end_run" (TEndRun rid true) w2) as [[u | e] w3];
      cbn [snd ret] in *; congruence.
  - pose proof (keeps_tracking_request "mlflow.end_run" (TEndRun rid false) Ht w2) as He.
    destruct (tracking_request L "mlflow.end_run" (TEndRun rid false) w2) as [o w3];
      cbn [snd] in *; congruence.
Qed.

End Keeps.

Lemma fs_ignores_log (L : Libs) : ignores_log (@w_fs L).
Proof. intros l w. reflexivity. Qed.
Lemma fs_ignores_calls (L : Libs) : ignores_calls (@w_fs L).
Proof. intros c w. reflexivity. Qed.
Lemma fs_ignores_tracking (L : Libs) : ignores_tracking (@w_fs L).
Proof. intros t w. reflexivity. Qed.
Lemma tracking_ignores_log (L : Libs) : ignores_log (@w_tracking L).
Proof. intros l w. reflexivity. Qed.
Lemma tracking_ignores_calls (L : Libs) : ignores_calls (@w_tracking L).
Proof. intros c w. reflexivity. Qed.
Lemma tracking_ignores_fs (L : Libs) : ignores_fs (@w_tracking L).
Proof. intros fs w. reflexivity. Qed.
Lemma calls_ignores_log (L : Libs) : ignores_log (@w_calls L).
Proof. intros l w. reflexivity. Qed.
Lemma calls_ignores_fs (L : Libs) : ignores_fs (@w_calls L).
Proof. intros fs w. reflexivity. Qed.
Lemma calls_ignores_tracking (L : Libs) : ignores_tracking (@w_calls L).
Proof. intros t w. reflexivity. Qed.

Lemma keeps_validate_data_quality (L : Libs) X (f : World L -> X) env df step_name :
  ignores_log f -> keeps f (validate_data_quality L env df step_name).
Proof.
  intros Hlog. unfold validate_data_quality.
  apply keeps_error_handler; [exact Hlog |].
  destruct (negb _); [apply keeps_ret |].
  apply keeps_bind; [apply keeps_import | intros _].
  apply keeps_bind; [apply keeps_import | intros _].
  cbv zeta.
  apply keeps_bind; [apply keeps_log; exact Hlog | intros _].
  apply keeps_bind; [| intros _; apply keeps_ret].
  match goal with
  | |- keeps _ (match ?x with _ => _ end) =>
      destruct x; [apply keeps_ret | apply keeps_log; exact Hlog]
  end.
Qed.

(** One step of a proof that a computation keeps a component. *)
Ltac keeps_step :=
  first
    [ apply keeps_ret | apply keeps_raise | apply keeps_lift | apply keeps_now
    | apply keeps_import | apply keeps_read_file
    | apply keeps_log; solve [auto using fs_ignores_log, tracking_ignores_log, calls_ignores_log]
    | apply keeps_called; solve [auto using fs_ignores_calls, tracking_ignores_calls]
    | apply keeps_mkdir_parent; solve [auto using tracking_ignores_fs, calls_ignores_fs]
    | apply keeps_write_file; solve [auto using tracking_ignores_fs, calls_ignores_fs]
    | apply keeps_tracking_request; solve [auto using fs_ignores_tracking, calls_ignores_tracking]
    | apply keeps_start_run; solve [auto using fs_ignores_tracking, calls_ignores_tracking]
    | apply keeps_validate_data_quality;
      solve [auto using fs_ignores_log, tracking_ignores_log, calls_ignores_log]
    | apply keeps_error_handler;
      [solve [auto using fs_ignores_log, tracking_ignores_log, calls_ignores_log] |]
    | apply keeps_with_run;
      [solve [auto using fs_ignores_tracking, calls_ignores_tracking] | intros ?]
    | apply keeps_bind; [| intros ?]
    | apply keeps_try_except; [| intros ?]
    | match goal with
      | |- keeps _ (let '(_, _) := ?p in _) => destruct p
      | |- keeps _ (if ?b then _ else _) => destruct b
      | |- keeps _ (match ?x with _ => _ end) => destruct x
      end ].

Ltac solve_keeps :=
  repeat (unfold read_csv, to_csv, json_dump, pickle_dump, pickle_load, save_mock, save_split,
            fit_transform, transform, fitted_state, mlflow_sklearn_log_model;
          keeps_step).

(** ** Which steps talk to the tracking server, and which write *)


Lemma preprocess_first_keeps_tracking (L : Libs) env cfg a b c d e :
  keeps (@w_tracking L) (preprocess_data_first L env cfg a b c d e).
Proof. unfold preprocess_data_first. solve_keeps. Qed.

Lemma preprocess_keeps_tracking (L : Libs) env a b c d :
  keeps (@w_tracking L) (preprocess_data L env a b c d).
Proof. unfold preprocess_data. solve_keeps. Qed.

(** ** Writing below a directory that [mkdir] made *)

Lemma prefixes_from_last (rest : list string) : forall pre,
  rest <> [] -> (pre ++ rest) ∈ prefixes_from pre rest.
Proof.
  induction rest as [| c rest' IH]; intros pre Hne; [congruence |].
  cbn [prefixes_from]. destruct rest' as [| c' rest''].
  - apply list_elem_of_here.
  - apply list_elem_of_further.
    replace (pre ++ c :: c' :: rest'') with ((pre ++ [c]) ++ c' :: rest'')
      by (rewrite <- app_assoc; reflexivity).
    apply IH. discriminate.
Qed.

Lemma prefixes_from_length (rest : list string) : forall pre x,
  x ∈ prefixes_from pre rest -> (length x <= length pre + length rest)%nat.
Proof.
  induction rest as [| c rest' IH]; intros pre x Hin; cbn [prefixes_from] in Hin.
  - inversion Hin.
  - apply elem_of_cons in Hin as [-> | Hin].
    + rewrite length_app. cbn. lia.
    + apply IH in Hin. rewrite length_app in Hin. cbn in *. lia.
Qed.

Lemma is_dir_member (L : Libs) (fs : FS L) d : d ∈ fs_dirs fs -> is_dir fs d = true.
Proof.
  intros Hin. unfold is_dir. rewrite (bool_decide_eq_true_2 _ Hin).
  repeat case_match; reflexivity.
Qed.

Lemma is_dir_after_mkdir (L : Libs) (dirs : gset (list string)) files d :
  @is_dir L (mkFS (dirs ∪ list_to_set (ancestors_and_self d)) files) d = true.
Proof.
  destruct d as [| c rest]; [reflexivity |].
  apply is_dir_member. cbn [fs_dirs].
  assert (Hin : (c :: rest) ∈ ancestors_and_self (c :: rest))
    by (apply (prefixes_from_last (c :: rest) []); discriminate).
  apply elem_of_union. right. apply elem_of_list_to_set. exact Hin.
Qed.

(** ** The generate step, run to its end *)

Lemma is_dir_spec (L : Libs) (fs : FS L) d :
  is_dir fs d = true <-> d = [] \/ d = ["/"] \/ d ∈ fs_dirs fs.
Proof.
  split.
  - unfold is_dir. repeat case_match; subst; auto;
      intros H; apply bool_decide_eq_true in H; auto.
  - intros [-> | [-> | Hin]]; [reflexivity | reflexivity | apply is_dir_member; exact Hin].
Qed.

Lemma length_removelast_S {A} (l : list A) : l <> [] -> S (length (removelast l)) = length l.
Proof.
  induction l as [| x l IH]; [congruence |]. intros _.
  destruct l as [| y l]; [reflexivity |].
  change (removelast (x :: y :: l)) with (x :: removelast (y :: l)).
  cbn [length]. f_equal. apply IH. discriminate.
Qed.

Lemma parent_length (p : list string) :
  p <> [] -> p <> ["/"] -> S (length (parent p)) = length p.
Proof.
  intros H1 H2. unfold parent.
  repeat case_match; subst; try congruence; apply length_removelast_S; discriminate.
Qed.

(** The path of a file is not among the directories [mkdir] makes for it. *)
Lemma path_not_among_ancestors (p : list string) :
  p <> [] -> p <> ["/"] -> p ∉ ancestors_and_self (parent p).
Proof.
  intros H1 H2 Hin. apply prefixes_from_length in Hin.
  pose proof (parent_length p H1 H2). cbn in Hin. lia.
Qed.

Lemma bind_log (L : Libs) B lvl msg (k : unit -> M L B) (w : World L) :
  bind L (log L lvl msg) k w = k tt (set_log (w_log w ++ [mkLog lvl msg]) w).
Proof. reflexivity. Qed.

Lemma bind_now (L : Libs) B (k : Z -> M L B) (w : World L) :
  bind L (now L) k w = k (w_clock w) w.
Proof. reflexivity. Qed.

(** [mkdir] of the parent, then the write, at a path that can be created. *)
Lemma mkdir_then_write (L : Libs) B site path c (k : unit -> M L B) (w : World L) :
  can_create (w_fs w) path = true ->
  bind L (mkdir_parent L path) (fun _ => bind L (write_file L site path c) k) w
  = k tt (set_fs (mkFS (fs_dirs (w_fs w)
                        ∪ list_to_set (ancestors_and_self (parent (parts path))))
                    (<[parts path := c]> (fs_files (w_fs w)))) w).
Proof.
  unfold can_create. rewrite !andb_true_iff, !negb_true_iff.
  intros [[[[Hne Hslash] Hdir] Hfile] Hanc].
  unfold bind at 1. unfold mkdir_parent. rewrite Hfile, Hanc.
  unfold bind, write_file. cbn [w_fs set_fs]. rewrite Hne, Hslash.
  assert (Hdir' : is_dir (mkFS (fs_dirs (w_fs w)
                               ∪ list_to_set (ancestors_and_self (parent (parts path))))
                            (fs_files (w_fs w))) (parts path) = false).
  { apply not_true_is_false. intros Htrue. apply is_dir_spec in Htrue.
    assert (Hnot : ~ is_dir (w_fs w) (parts path) = true) by congruence.
    rewrite is_dir_spec in Hnot. cbn [fs_dirs] in Htrue.
    destruct Htrue as [H | [H | H]]; [tauto | tauto |].
    apply elem_of_union in H as [H | H]; [tauto |].
    apply elem_of_list_to_set in H.
    apply (path_not_among_ancestors (parts path)); tauto. }
  rewrite Hdir'. cbn [orb].
  unfold is_file at 1. cbn [fs_files]. unfold is_file in Hfile. rewrite Hfile.
  rewrite is_dir_after_mkdir. cbn [negb]. reflexivity.
Qed.

(** X5. In degraded tier the generate step produces its placeholder
    whenever the output path can be created: it returns the configured
    sample and feature counts, the file at the output path then holds the
    mock object with those counts, the class count and the time of the
    run, the directory of the file exists afterwards, and the step calls
    no library and sends nothing to the tracking server. *)
Theorem generate_degraded_writes_placeholder
    (L : Libs) (env : Env) (cfg : DataConfig) (path : string) (w : World L) :
  full_tier env = false ->
  can_create (w_fs w) path = true ->
  exists w',
    generate_synthetic_data L env cfg path w
    = (Return (n_samples cfg, n_features cfg), w')
    /\ fs_files (w_fs w')
       = <[parts path :=
             FJson (JObj [("samples", JInt (n_samples cfg));
                          ("features", JInt (n_features cfg));
                          ("classes", JInt (n_classes cfg));
                          ("generated_at", JStr (isoformat L (w_clock w)))])]>
           (fs_files (w_fs w))
    /\ is_dir (w_fs w') (parent (parts path)) = true
    /\ w_calls w' = w_calls w /\ w_tracking w' = w_tracking w.
Proof.
  intros Hdeg Hcan.
  unfold generate_synthetic_data. rewrite Hdeg, error_handler_outcome. cbv zeta.
  rewrite bind_log, bind_now. unfold json_dump.
  rewrite mkdir_then_write by exact Hcan.
  cbn [ret]. eexists. split; [reflexivity |].
  cbn [w_fs set_fs set_log fs_files w_calls w_tracking].
  split; [reflexivity |]. split; [apply is_dir_after_mkdir |]. split; reflexivity.
Qed.

Lemma generate_degraded_writes_placeholder_witness :
  exists w',
    generate_synthetic_data Toy.libs Toy.env_kfp_only DATA_CONFIG_default "out/raw/data.json"
      Toy.world_empty = (Return (1000, 10), w')
    /\ is_dir (w_fs w') ["out"; "raw"] = true.
Proof.
  destruct (generate_degraded_writes_placeholder Toy.libs Toy.env_kfp_only DATA_CONFIG_default
              "out/raw/data.json" Toy.world_empty eq_refl eq_refl)
    as (w' & Hrun & _ & Hdir & _).
  exists w'. split; [exact Hrun | exact Hdir].
Defined.

(** ** Reading a finished statement of a step *)

Lemma write_file_returns (L : Libs) site path c a (w w' : World L) :
  write_file L site path c w = (Return a, w') ->
  w' = set_fs (mkFS (fs_dirs (w_fs w)) (<[parts path := c]> (fs_files (w_fs w)))) w.
Proof.
  unfold write_file.
  repeat match goal with |- context [if ?b then _ else _] => destruct b end;
    try discriminate.
  intros H. inversion H; subst. reflexivity.
Qed.

Lemma mkdir_parent_returns (L : Libs) path a (w w' : World L) :
  mkdir_parent L path w = (Return a, w') ->
  w' = set_fs (mkFS (fs_dirs (w_fs w)
                     ∪ list_to_set (ancestors_and_self (parent (parts path))))
                 (fs_files (w_fs w))) w.
Proof.
  unfold mkdir_parent.
  repeat match goal with |- context [if ?b then _ else _] => destruct b end;
    try discriminate.
  intros H. inversion H; subst. reflexivity.
Qed.

Lemma read_csv_returns (L : Libs) path df (w w' : World L) :
  read_csv L path w = (Return df, w') ->
  w' = w /\ fs_files (w_fs w) !! parts path = Some (FCsv (endswith ".gz" path) df).
Proof.
  unfold read_csv, bind, read_file.
  destruct (fs_files (w_fs w) !! parts path) as [[j | gz df' | o] |] eqn:Hfile;
    try discriminate.
  destruct (Bool.eqb gz (endswith ".gz" path)) eqn:Hgz; [| destruct gz; discriminate].
  apply Bool.eqb_prop in Hgz. subst gz.
  intros H. inversion H; subst. auto.
Qed.

Lemma tracking_request_returns (L : Libs) site ev a (w w' : World L) :
  tracking_request L site ev w = (Return a, w') ->
  tr_up (w_tracking w) = true
  /\ w' = set_tracking L (mkTracking true (tr_next_run (w_tracking w))
                            (tr_events (w_tracking w) ++ [ev])) w.
Proof.
  unfold tracking_request. destruct (tr_up (w_tracking w)); [| discriminate].
  intros H. inversion H; subst. auto.
Qed.

Lemma start_run_returns (L : Libs) rid (w w' : World L) :
  mlflow_start_run L w = (Return rid, w') ->
  tr_up (w_tracking w) = true
  /\ rid = run_id_of (tr_next_run (w_tracking w))
  /\ w' = set_tracking L (mkTracking true (tr_next_run (w_tracking w) + 1)
                            (tr_events (w_tracking w)
                             ++ [TStartRun (run_id_of (tr_next_run (w_tracking w)))])) w.
Proof.
  unfold mlflow_start_run. destruct (tr_up (w_tracking w)); [| discriminate].
  intros H. inversion H; subst. auto.
Qed.

Lemma with_run_returns (L : Libs) A (body : string -> M L A) a (w w' : World L) :
  with_run L body w = (Return a, w') ->
  exists rid w1 w2,
    mlflow_start_run L w = (Return rid, w1)
    /\ body rid w1 = (Return a, w2)
    /\ tracking_request L "mlflow.end_run" (TEndRun rid true) w2 = (Return tt, w').
Proof.
  unfold with_run, bind.
  destruct (mlflow_start_run L w) as [[rid | e] w1] eqn:Hstart; [| discriminate].
  destruct (body rid w1) as [[a' | e] w2] eqn:Hbody.
  - destruct (tracking_request L "mlflow.end_run" (TEndRun rid true) w2)
      as [[[] | e] w3] eqn:Hend; [| discriminate].
    unfold ret. intros H. inversion H; subst. exists rid, w1, w2. auto.
  - destruct (tracking_request L _ _ w2); discriminate.
Qed.

Lemma validate_returns (L : Libs) env df step_name r (w w' : World L) :
  validate_data_quality L env df step_name w = (Return r, w') ->
  w_fs w' = w_fs w /\ w_calls w' = w_calls w /\ w_tracking w' = w_tracking w.
Proof.
  intros H.
  destruct (validate_data_quality_returns L env df step_name w) as (w'' & Hrun & Hf & Hc & Ht & _).
  rewrite Hrun in H. inversion H; subst. auto.
Qed.

Lemma pickle_load_returns (L : Libs) path o (w w' : World L) :
  pickle_load L path w = (Return o, w') ->
  w' = w /\ fs_files (w_fs w) !! parts path = Some (FPickle o).
Proof.
  unfold pickle_load, bind, read_file.
  destruct (fs_files (w_fs w) !! parts path) as [[j | gz df | o'] |] eqn:Hfile;
    try discriminate.
  intros H. inversion H; subst. auto.
Qed.

(** The model goes to the server as a logged model or, when the client
    has no [mlflow.sklearn], as an artifact. *)
Lemma log_model_or_artifact_returns (L : Libs) rid a (w w' : World L) :
  try_except L (mlflow_sklearn_log_model L rid) catches_attribute_or_import
    (fun _ => tracking_request L "mlflow.log_artifact" (TLogArtifact rid "model")) w
  = (Return a, w') ->
  w' = set_tracking L
         (mkTracking true (tr_next_run (w_tracking w))
            (tr_events (w_tracking w)
             ++ [if mlflow_sklearn_flavor L
                 then TLogModel rid "model" "music-therapy-classifier"
                 else TLogArtifact rid "model"])) w.
Proof.
  unfold try_except, mlflow_sklearn_log_model.
  destruct (mlflow_sklearn_flavor L).
  - unfold tracking_request. destruct (tr_up (w_tracking w)); [| discriminate].
    intros H. inversion H; subst. reflexivity.
  - unfold raise. cbn [catches_attribute_or_import exc_class].
    unfold tracking_request. destruct (tr_up (w_tracking w)); [| discriminate].
    intros H. inversion H; subst. reflexivity.
Qed.

(** What one finished statement of a step says, with the world after it
    given in terms of the world before it wherever the statement fixes it. *)
Ltac read_off Hm :=
  lazymatch type of Hm with
  | lift _ _ _ = _ => unfold lift in Hm; injection Hm as Hm ?; subst
  | ret _ _ _ = _ => unfold ret in Hm; injection Hm as ? ?; subst
  | called _ _ _ = _ => unfold called in Hm; injection Hm as ? ?; subst
  | log _ _ _ _ = _ => unfold log in Hm; injection Hm as ? ?; subst
  | now _ _ = _ => unfold now in Hm; injection Hm as ? ?; subst
  | import_module _ ?env ?m _ = _ =>
      unfold import_module in Hm;
      let v := fresh "v" in
      let Himp := fresh "Himp" in
      destruct (env m) as [v |] eqn:Himp; [| discriminate Hm];
      unfold ret in Hm; injection Hm as ? ?; subst
  | mkdir_parent _ _ _ = _ => apply mkdir_parent_returns in Hm; subst
  | to_csv _ _ _ _ = _ => unfold to_csv in Hm; apply write_file_returns in Hm; subst
  | json_dump _ _ _ _ = _ => unfold json_dump in Hm; apply write_file_returns in Hm; subst
  | pickle_dump _ _ _ _ = _ => unfold pickle_dump in Hm; apply write_file_returns in Hm; subst
  | read_csv _ _ _ = _ => apply read_csv_returns in Hm as [? Hm]; subst
  | tracking_request _ _ _ _ = _ => apply tracking_request_returns in Hm as [? ?]; subst
  | validate_data_quality _ _ _ _ _ = _ => apply validate_returns in Hm as (? & ? & ?)
  | pickle_load _ _ _ = _ => apply pickle_load_returns in Hm as [? Hm]; subst
  | try_except _ (mlflow_sklearn_log_model _ _) _ _ _ = _ =>
      apply log_model_or_artifact_returns in Hm; subst
  | fit_transform _ _ _ _ = _ =>
      let f := fresh "fitted" in
      apply fit_transform_inv in Hm as (f & ? & ? & ? & ? & ?); subst
  | transform _ _ _ _ = _ =>
      let Hsame := fresh "Hsame" in
      apply transform_inv in Hm as (? & (? & Hsame & ?) & ? & ?); subst;
      injection Hsame as Hsame; subst
  | fitted_state _ _ _ = _ =>
      let Hsame := fresh "Hsame" in
      apply fitted_state_inv in Hm as [Hsame ?]; subst;
      injection Hsame as Hsame; subst
  | (if PrimFloat.eqb ?a ?b then _ else _) _ = _ =>
      destruct (PrimFloat.eqb a b);
      [discriminate Hm | unfold ret in Hm; injection Hm as ? ?; subst]
  | _ => idtac
  end.

(** Take the first statement off a run that returned and read it off. *)
Ltac advance H :=
  let a := fresh "a" in
  let w := fresh "w" in
  let Hm := fresh "Hm" in
  apply bind_Return_inv in H as (a & w & Hm & H);
  repeat match type of H with
         | context [let '(_, _) := ?p in _] => destruct p
         end;
  read_off Hm.

(** ** The columns of a table after an assignment *)

Lemma DataFrame_of_columns X names df :
  DataFrame_of X names = Return df -> df_columns df = names.
Proof.
  unfold DataFrame_of. destruct (_ =? _); [| discriminate].
  intros H. inversion H; subst. reflexivity.
Qed.

Lemma set_column_columns df name values df' :
  set_column df name values = Return df' ->
  df_columns df'
  = if has_column df name then df_columns df else df_columns df ++ [name].
Proof.
  unfold set_column, has_column. destruct (negb _); [discriminate |].
  destruct (index_of name (df_columns df)); intros H; inversion H; subst; reflexivity.
Qed.

Lemma set_column_scalar_columns df name v :
  df_columns (set_column_scalar df name v)
  = if has_column df name then df_columns df else df_columns df ++ [name].
Proof.
  unfold set_column_scalar, has_column.
  destruct (index_of name (df_columns df)); reflexivity.
Qed.

(** X6. A full-tier run of the generate step that returns has written the
    dataset at the output path: a table, gzip-compressed exactly when the
    path ends in [.gz], whose columns are the ten feature names followed
    by the target, its encoding and the three metadata columns. The step
    returns the row count of that table and 10, made one library call and
    sent nothing to the tracking server. *)
Theorem generate_full_tier_dataset
    (L : Libs) (env : Env) (cfg : DataConfig) (path : string) (w w' : World L) (s f : Z) :
  full_tier env = true ->
  generate_synthetic_data L env cfg path w = (Return (s, f), w') ->
  exists df,
    fs_files (w_fs w') !! parts path = Some (FCsv (endswith ".gz" path) df)
    /\ df_columns df
       = feature_names
         ++ ["therapy_category"; "therapy_category_encoded"; "data_source"; "created_at";
             "pipeline_version"]
    /\ s = len_df df /\ f = 10
    /\ w_calls w'
       = w_calls w
         ++ [CallMakeClassification (n_samples cfg) (n_features cfg) (n_classes cfg)]
    /\ w_tracking w' = w_tracking w.
Proof.
  intros Hfull H.
  unfold generate_synthetic_data in H.
  rewrite Hfull, error_handler_outcome in H. cbv zeta in H.
  match type of H with
  | context [match ?b ?w1 with _ => _ end] =>
      destruct (b w1) as [[r | e] w2] eqn:Hbody
  end; [| discriminate].
  inversion H; subst; clear H.
  repeat advance Hbody.
  unfold ret in Hbody. injection Hbody as Hs Hf Hw2. subst.
  eexists. cbn [w_fs w_calls w_tracking set_log].
  repeat match goal with
         | Hk : w_fs ?x = _ |- _ => rewrite Hk; clear Hk
         | Hk : w_calls ?x = _ |- _ => rewrite Hk; clear Hk
         | Hk : w_tracking ?x = _ |- _ => rewrite Hk; clear Hk
         end.
  cbn [w_fs w_calls w_tracking set_log set_fs set_calls fs_files].
  split; [apply lookup_insert_eq |].
  split.
  { repeat (unfold has_column;
            rewrite ?set_column_scalar_columns;
            repeat match goal with
                   | Hc : set_column _ _ _ = Return ?d |- context [df_columns ?d] =>
                       rewrite (set_column_columns _ _ _ _ Hc)
                   | Hc : DataFrame_of _ _ = Return ?d |- context [df_columns ?d] =>
                       rewrite (DataFrame_of_columns _ _ _ Hc)
                   end).
    reflexivity. }
  repeat split; reflexivity.
Qed.

Lemma generate_full_tier_dataset_witness :
  exists df,
    fs_files (w_fs (snd (generate_synthetic_data Toy.libs Toy.env_all config_small
                           "out/raw/data.csv.gz" Toy.world_empty)))
      !! parts "out/raw/data.csv.gz" = Some (FCsv true df)
    /\ len_df df = 20.
Proof.
  assert (Hreturns : fst (generate_synthetic_data Toy.libs Toy.env_all config_small
                            "out/raw/data.csv.gz" Toy.world_empty) = Return (20, 10))
    by (vm_compute; reflexivity).
  destruct (generate_synthetic_data Toy.libs Toy.env_all config_small "out/raw/data.csv.gz"
              Toy.world_empty) as [o w'] eqn:Hrun.
  cbn [fst snd] in *. subst o.
  destruct (generate_full_tier_dataset Toy.libs Toy.env_all config_small "out/raw/data.csv.gz"
              Toy.world_empty w' 20 10 eq_refl Hrun) as (df & Hfile & _ & Hs & _).
  exists df. split; [exact Hfile | congruence].
Defined.

(** ** Labels of the generated data *)

Lemma therapy_labels_first_unknown (before : list Z) (label : Z) (after : list Z) :
  Forall (fun l => 0 <= l <= 2) before -> ~ (0 <= label <= 2) ->
  therapy_labels (before ++ label :: after)
  = Raise (mkExn KeyError (str_of_Z label) "dict.__getitem__").
Proof.
  intros Hall Hbad. induction Hall as [| l before Hl Hall IH].
  - cbn [app therapy_labels].
    replace (label =? 0) with false by (symmetry; apply Z.eqb_neq; lia).
    replace (label =? 1) with false by (symmetry; apply Z.eqb_neq; lia).
    replace (label =? 2) with false by (symmetry; apply Z.eqb_neq; lia).
    reflexivity.
  - cbn [app therapy_labels]. rewrite IH.
    destruct (l =? 0) eqn:H0; [reflexivity |].
    destruct (l =? 1) eqn:H1; [reflexivity |].
    destruct (l =? 2) eqn:H2; [reflexivity |].
    apply Z.eqb_neq in H0, H1, H2. lia.
Qed.

(** X7. The full-tier generate step knows three classes. When
    [make_classification] returns ten columns, at least one row and a
    label other than 0, 1 or 2, the step raises [KeyError] with the first
    such label as its text, after the DataFrame was built and before
    anything is written. *)
Theorem generate_label_outside_three_classes
    (L : Libs) (env : Env) (cfg : DataConfig) (path : string) (w : World L)
    (X : Matrix) (before : list Z) (label : Z) (after : list Z) :
  full_tier env = true ->
  make_classification L (n_samples cfg) (n_features cfg) (n_classes cfg) (random_state cfg)
  = Return (X, before ++ label :: after) ->
  m_ncols X = 10 -> m_rows X <> [] ->
  Forall (fun l => 0 <= l <= 2) before -> ~ (0 <= label <= 2) ->
  exists w',
    generate_synthetic_data L env cfg path w
    = (Raise (mkExn KeyError (str_of_Z label) "dict.__getitem__"), w')
    /\ w_fs w' = w_fs w.
Proof.
  intros Hfull Hmc Hcols Hrows Hall Hbad.
  destruct (full_tier_importable env Hfull) as (vp & vn & vs & Hp & Hn & Hs).
  destruct (scale_ten_features_fits X) as (X' & Hsc & Hc' & Hr'); [lia | exact Hrows |].
  unfold generate_synthetic_data. rewrite Hfull, error_handler_outcome. cbv zeta.
  unfold import_module. rewrite Hp, Hn, Hs, !bind_ret, bind_called.
  rewrite Hmc, bind_lift_Return, Hsc, bind_lift_Return.
  unfold DataFrame_of at 1.
  replace (m_ncols X' =? Z.of_nat (length feature_names)) with true
    by (symmetry; apply Z.eqb_eq; cbn; lia).
  rewrite bind_lift_Return.
  rewrite (therapy_labels_first_unknown before label after Hall Hbad), bind_lift_Raise.
  eexists. split; reflexivity.
Qed.

Lemma generate_label_outside_three_classes_witness :
  exists w',
    generate_synthetic_data Toy.libs Toy.env_all config_four_classes "out/raw/data.csv"
      Toy.world_empty
    = (Raise (mkExn KeyError "3" "dict.__getitem__"), w').
Proof.
  assert (Hmc : exists X,
             make_classification Toy.libs (n_samples config_four_classes)
               (n_features config_four_classes) (n_classes config_four_classes)
               (random_state config_four_classes)
             = Return (X, [0; 1; 2] ++ 3 :: [0])
             /\ m_ncols X = 10 /\ m_rows X <> []).
  { eexists. split; [vm_compute; reflexivity |]. split; [reflexivity | discriminate]. }
  destruct Hmc as (X & Hmc & Hcols & Hrows).
  destruct (generate_label_outside_three_classes Toy.libs Toy.env_all config_four_classes
              "out/raw/data.csv" Toy.world_empty X [0; 1; 2] 3 [0] eq_refl Hmc Hcols Hrows)
    as (w' & Hrun & _).
  - repeat constructor; lia.
  - lia.
  - exists w'. exact Hrun.
Defined.

(** ** The three-split preprocess step at its edges *)

Lemma save_mock_returns (L : Libs) s0 s1 s2 path a (w w' : World L) :
  save_mock L (s0, s1, s2) path w = (Return a, w') ->
  w' = set_fs
         (mkFS (fs_dirs (w_fs w) ∪ list_to_set (ancestors_and_self (parent (parts path))))
            (<[parts path :=
                 FJson (JObj [("mock", JBool true);
                              ("samples",
                               JInt (if contains "train" path then s0
                                     else if contains "val" path then s1 else s2))])]>
               (fs_files (w_fs w)))) w.
Proof.
  unfold save_mock. intros H.
  apply bind_Return_inv in H as (u & w1 & Hmk & Hw).
  apply mkdir_parent_returns in Hmk. subst w1.
  unfold json_dump in Hw. apply write_file_returns in Hw. subst w'. reflexivity.
Qed.

(** X8. The degraded branch of the three-split preprocess step is fixed:
    its run depends neither on the input path nor on the configuration (it
    never opens the input), and a run that returns gives (800, 100, 100),
    leaves at the scaler path the mock object, whose sample count is 800
    if the path contains "train" and 100 otherwise, calls no library and
    sends nothing to the tracking server. *)
Theorem preprocess_degraded_is_fixed
    (L : Libs) (env : Env) (cfg cfg' : DataConfig)
    (input_path input_path' train_path test_path validation_path scaler_p : string)
    (w : World L) :
  full_tier env = false ->
  preprocess_data_first L env cfg input_path train_path test_path validation_path scaler_p w
  = preprocess_data_first L env cfg' input_path' train_path test_path validation_path
      scaler_p w
  /\ forall sizes w',
       preprocess_data_first L env cfg input_path train_path test_path validation_path
         scaler_p w = (Return sizes, w') ->
       sizes = (800, 100, 100)
       /\ fs_files (w_fs w') !! parts scaler_p
          = Some (FJson (JObj [("mock", JBool true);
                               ("samples",
                                JInt (if contains "train" scaler_p then 800 else 100))]))
       /\ w_calls w' = w_calls w /\ w_tracking w' = w_tracking w.
Proof.
  intros Hdeg. split.
  { unfold preprocess_data_first. rewrite Hdeg. reflexivity. }
  intros sizes w' H.
  unfold preprocess_data_first in H.
  rewrite Hdeg, error_handler_outcome in H. cbv zeta in H.
  match type of H with
  | context [match ?b ?w1 with _ => _ end] =>
      destruct (b w1) as [[r | e] w2] eqn:Hbody
  end; [| discriminate].
  inversion H; subst; clear H.
  rewrite bind_log in Hbody.
  repeat match type of Hbody with
         | bind _ (save_mock _ _ _) _ _ = _ =>
             let u := fresh "u" in
             let wi := fresh "wi" in
             let Hm := fresh "Hm" in
             apply bind_Return_inv in Hbody as (u & wi & Hm & Hbody);
             apply save_mock_returns in Hm; subst wi
         end.
  unfold ret in Hbody. injection Hbody as Hsizes Hw2. subst.
  split; [reflexivity |].
  cbn [w_fs w_calls w_tracking set_log set_fs fs_files].
  split; [| split; reflexivity].
  rewrite lookup_insert_eq. destruct (contains "train" scaler_p); [reflexivity |].
  destruct (contains "val" scaler_p); reflexivity.
Qed.

Lemma preprocess_degraded_is_fixed_witness :
  exists w',
    preprocess_data_first Toy.libs Toy.env_kfp_only DATA_CONFIG_default "no/such/input.csv"
      "out/processed/train.csv" "out/processed/test.csv" "out/processed/validation.csv"
      "out/processed/scaler.pkl" Toy.world_empty = (Return (800, 100, 100), w')
    /\ fs_files (w_fs w') !! parts "out/processed/scaler.pkl"
       = Some (FJson (JObj [("mock", JBool true); ("samples", JInt 100)])).
Proof.
  assert (Hreturns : fst (preprocess_data_first Toy.libs Toy.env_kfp_only DATA_CONFIG_default
                            "no/such/input.csv" "out/processed/train.csv"
                            "out/processed/test.csv" "out/processed/validation.csv"
                            "out/processed/scaler.pkl" Toy.world_empty)
                     = Return (800, 100, 100)) by (vm_compute; reflexivity).
  destruct (preprocess_data_first Toy.libs Toy.env_kfp_only DATA_CONFIG_default
              "no/such/input.csv" "out/processed/train.csv" "out/processed/test.csv"
              "out/processed/validation.csv" "out/processed/scaler.pkl" Toy.world_empty)
    as [o w'] eqn:Hrun.
  cbn [fst] in Hreturns. subst o.
  destruct (preprocess_degraded_is_fixed Toy.libs Toy.env_kfp_only DATA_CONFIG_default
              DATA_CONFIG_default "no/such/input.csv" "no/such/input.csv"
              "out/processed/train.csv" "out/processed/test.csv"
              "out/processed/validation.csv" "out/processed/scaler.pkl" Toy.world_empty
              eq_refl) as [_ Hfixed].
  rewrite Hrun in Hfixed.
  destruct (Hfixed _ _ eq_refl) as (_ & Hfile & _).
  exists w'. split; [reflexivity | exact Hfile].
Defined.

Lemma read_csv_present (L : Libs) path df (w : World L) :
  fs_files (w_fs w) !! parts path = Some (FCsv (endswith ".gz" path) df) ->
  read_csv L path w = (Return df, w).
Proof.
  intros Hfile. unfold read_csv, bind, read_file. rewrite Hfile.
  rewrite Bool.eqb_reflx. reflexivity.
Qed.


(** X9. The data contract of the three-split preprocess step. In full
    tier, when the input table has no column [therapy_category], the step
    raises [ValueError] with the text "Target column 'therapy_category'
    not found in dataset"; [error_handler] logs the failure; no library
    was called, nothing was written and nothing sent to the tracking
    server. *)
Theorem preprocess_missing_target_column
    (L : Libs) (env : Env) (cfg : DataConfig)
    (input_path train_path test_path validation_path scaler_p : string)
    (w : World L) (df : DataFrame) :
  full_tier env = true ->
  fs_files (w_fs w) !! parts input_path = Some (FCsv (endswith ".gz" input_path) df) ->
  has_column df "therapy_category" = false ->
  exists w',
    preprocess_data_first L env cfg input_path train_path test_path validation_path scaler_p w
    = (Raise (mkExn ValueError "Target column 'therapy_category' not found in dataset"
                "preprocess_data"), w')
    /\ w_fs w' = w_fs w /\ w_calls w' = w_calls w /\ w_tracking w' = w_tracking w
    /\ exists earlier,
         w_log w'
         = earlier
           ++ failure_records "Data Preprocessing"
                (mkExn ValueError "Target column 'therapy_category' not found in dataset"
                   "preprocess_data").
Proof.
  intros Hfull Hfile Hcol.
  destruct (full_tier_importable env Hfull) as (vp & vn & vs & Hp & Hn & Hs).
  unfold preprocess_data_first. rewrite Hfull, error_handler_outcome. cbv zeta.
  unfold import_module. rewrite Hp, Hn, Hs, !bind_ret.
  unfold bind at 1. unfold try_except.
  rewrite (read_csv_present L input_path df (set_log _ w) Hfile).
  unfold bind at 1.
  match goal with
  | |- context [validate_data_quality L env df ?n ?w0] =>
      destruct (validate_data_quality_returns L env df n w0)
        as (w1 & Hval & Hfs & Hcalls & Htr & _);
      rewrite Hval
  end.
  rewrite bind_log. unfold bind at 1. rewrite Hcol. unfold raise.
  eexists. split; [reflexivity |].
  cbn [w_fs w_calls w_tracking w_log set_log is_Exception exc_class].
  rewrite Hfs, Hcalls, Htr.
  repeat split; try reflexivity. eexists. reflexivity.
Qed.

Lemma preprocess_missing_target_column_witness :
  exists w',
    preprocess_data_first Toy.libs Toy.env_all DATA_CONFIG_default "data/train.csv"
      "out/train.csv" "out/test.csv" "out/validation.csv" "out/scaler.pkl"
      world_without_target
    = (Raise (mkExn ValueError "Target column 'therapy_category' not found in dataset"
                "preprocess_data"), w')
    /\ w_fs w' = w_fs world_without_target.
Proof.
  destruct (preprocess_missing_target_column Toy.libs Toy.env_all DATA_CONFIG_default
              "data/train.csv" "out/train.csv" "out/test.csv" "out/validation.csv"
              "out/scaler.pkl" world_without_target table_without_target
              eq_refl eq_refl eq_refl) as (w' & Hrun & Hfs & _).
  exists w'. split; [exact Hrun | exact Hfs].
Defined.



(** ** The steps in effect, run to their end *)

(** X11. A run of the [preprocess_data] in effect that returns: it read
    the input table, took as features every column but [therapy_category],
    split once with test size 0.2 and seed 42 (whatever the configuration
    says), fitted the scaler once, on the train part, transformed the test
    part with that state, and pickled that state alone at the scaler path.
    There is no validation part, and nothing goes to the tracking server. *)
Theorem preprocess_in_effect_run
    (L : Libs) (env : Env) (input_path train_path test_path scaler_p : string)
    (w w' : World L) (sizes : Z * Z) :
  preprocess_data L env input_path train_path test_path scaler_p w = (Return sizes, w') ->
  exists df X y X_train X_test y_train y_test fitted,
    fs_files (w_fs w) !! parts input_path = Some (FCsv (endswith ".gz" input_path) df)
    /\ drop_column df "therapy_category" = Return X
    /\ get_column df "therapy_category" = Return y
    /\ train_test_split L X y 0.2%float 42 = Return (X_train, X_test, y_train, y_test)
    /\ w_calls w'
       = w_calls w
         ++ [CallTrainTestSplit (len_df X); CallScalerFit X_train; CallScalerTransform X_test]
    /\ scaler_fit L X_train = Return fitted
    /\ fs_files (w_fs w') !! parts scaler_p = Some (FPickle (PScaler L fitted))
    /\ w_tracking w' = w_tracking w.
Proof.
  intros H.
  pose proof (keeps_run (@w_tracking L) _ _ _ _ (preprocess_keeps_tracking L env _ _ _ _) H)
    as Htracking.
  unfold preprocess_data in H.
  repeat advance H.
  unfold ret in H. injection H as Hsizes Hw'. subst.
  do 8 eexists.
  split; [eassumption |]. split; [eassumption |]. split; [eassumption |].
  split; [eassumption |].
  cbn [w_fs w_calls w_tracking set_fs set_calls fs_files].
  repeat match goal with
         | Hk : w_fs ?x = _ |- _ => rewrite Hk; clear Hk
         | Hk : w_calls ?x = _ |- _ => rewrite Hk; clear Hk
         end.
  cbn [w_fs w_calls w_tracking set_fs set_calls fs_files].
  split; [rewrite <- !app_assoc; reflexivity |].
  split; [eassumption |].
  split; [apply lookup_insert_eq |].
  exact Htracking.
Qed.

Lemma preprocess_in_effect_run_witness :
  exists X_train fitted,
    scaler_fit Toy.libs X_train = Return fitted
    /\ fs_files (w_fs (snd (preprocess_data Toy.libs Toy.env_all "data/train.csv"
                              "data/train_scaled.csv" "data/test_scaled.csv"
                              "data/scaler.pkl" (Toy.world_with_train Toy.tracker_up))))
         !! parts "data/scaler.pkl"
       = Some (FPickle (PScaler Toy.libs fitted)).
Proof.
  assert (Hreturns : fst (preprocess_data Toy.libs Toy.env_all "data/train.csv"
                            "data/train_scaled.csv" "data/test_scaled.csv"
                            "data/scaler.pkl" (Toy.world_with_train Toy.tracker_up))
                     = Return (3, 1)) by (vm_compute; reflexivity).
  destruct (preprocess_data Toy.libs Toy.env_all "data/train.csv" "data/train_scaled.csv"
              "data/test_scaled.csv" "data/scaler.pkl" (Toy.world_with_train Toy.tracker_up))
    as [o w'] eqn:Hrun.
  cbn [fst snd] in *. subst o.
  destruct (preprocess_in_effect_run Toy.libs Toy.env_all _ _ _ _ _ _ _ Hrun)
    as (df & X & y & X_train & X_test & y_train & y_test & fitted
        & _ & _ & _ & _ & _ & Hfit & Hfile & _).
  exists X_train, fitted. split; [exact Hfit | exact Hfile].
Defined.

Lemma tracking_down_request (L : Libs) site ev (w : World L) :
  tr_up (w_tracking w) = false ->
  tracking_request L site ev w
  = (Raise (mkExn MlflowException "API request failed: connection refused" site), w).
Proof. intros H. unfold tracking_request. rewrite H. reflexivity. Qed.

Lemma stops_clean_bind {L : Libs} {A B} (m : M L A) (k : A -> M L B) :
  keeps (@w_tracking L) m -> keeps (@w_fs L) m -> (forall a, stops_clean (k a)) ->
  stops_clean (bind L m k).
Proof.
  intros Ht Hf Hk w Hdown. unfold bind.
  specialize (Ht w). specialize (Hf w).
  destruct (m w) as [[a | e] w1]; cbn [snd] in *.
  - destruct (Hk a w1) as (e & w' & Hrun & Hfs); [congruence |].
    exists e, w'. split; [exact Hrun | congruence].
  - exists e, w1. auto.
Qed.

Lemma stops_clean_first {L : Libs} {A B} (m : M L A) (k : A -> M L B) :
  stops_clean m -> stops_clean (bind L m k).
Proof.
  intros Hm w Hdown. unfold bind.
  destruct (Hm w Hdown) as (e & w' & Hrun & Hfs). rewrite Hrun. eauto.
Qed.

Lemma stops_clean_with_run {L : Libs} {A} (body : string -> M L A) :
  stops_clean (with_run L body).
Proof.
  intros w Hdown. unfold with_run, bind, mlflow_start_run. rewrite Hdown. eauto.
Qed.

(** X12. With the tracking server not answering, neither [train_model]
    nor [evaluate_model] returns, whatever is installed and whatever the
    files hold. [train_model] raises before it reads anything and leaves
    the world untouched; [evaluate_model] raises at the latest when it
    starts its run, so the evaluation report is never written. *)
Theorem tracker_down_stops_train_and_evaluate
    (L : Libs) (env : Env) (data_path model_p report_path : string) (n d r : Z) (w : World L) :
  tr_up (w_tracking w) = false ->
  (exists e, train_model L env data_path model_p report_path n d r w = (Raise e, w))
  /\ exists e w',
       evaluate_model L env data_path model_p report_path w = (Raise e, w')
       /\ w_fs w' = w_fs w.
Proof.
  intros Hdown. split.
  - unfold train_model, import_module.
    destruct (env pandas); [| eexists; reflexivity].
    destruct (env mlflow); [| eexists; reflexivity].
    destruct (env sklearn); [| eexists; reflexivity].
    rewrite !bind_ret. unfold bind at 1.
    rewrite tracking_down_request by exact Hdown. eexists. reflexivity.
  - revert w Hdown. change (stops_clean (evaluate_model L env data_path model_p report_path)).
    unfold evaluate_model.
    repeat (apply stops_clean_bind; [solve [solve_keeps] | solve [solve_keeps] | intros ?]).
    apply stops_clean_first. apply stops_clean_with_run.
Qed.

Lemma tracker_down_stops_train_and_evaluate_witness :
  exists e,
    train_model Toy.libs Toy.env_all "data/train.csv" "data/model.pkl" "data/metrics.json"
      100 10 42 (Toy.world_with_train Toy.tracker_down)
    = (Raise e, Toy.world_with_train Toy.tracker_down).
Proof.
  destruct (tracker_down_stops_train_and_evaluate Toy.libs Toy.env_all "data/train.csv"
              "data/model.pkl" "data/metrics.json" 100 10 42
              (Toy.world_with_train Toy.tracker_down) eq_refl) as [Htrain _].
  exact Htrain.
Defined.


(** X13. A run of [train_model] that returns. The accuracy it returns is
    measured on the training table itself: the model is fitted on the
    features and target of the table at the train path and scored on its
    predictions for those same features. The run identifier it returns is
    the one the server gave the run it started. The metrics file holds
    that accuracy and that identifier, twice. The server received, in this
    order: the experiment, the start of the run, the three parameters, the
    accuracy, the model (as an artifact when the client has no
    [mlflow.sklearn]) and the end of the run. *)
Theorem train_model_run
    (L : Libs) (env : Env) (train_p model_p metrics_p : string) (n d r : Z)
    (w w' : World L) (accuracy : float) (rid : string) :
  train_model L env train_p model_p metrics_p n d r w = (Return (accuracy, rid), w') ->
  rid = run_id_of (tr_next_run (w_tracking w))
  /\ (exists train_df X_train y_train model y_pred,
        fs_files (w_fs w) !! parts train_p = Some (FCsv (endswith ".gz" train_p) train_df)
        /\ drop_column train_df "therapy_category" = Return X_train
        /\ get_column train_df "therapy_category" = Return y_train
        /\ model_fit L n d r X_train y_train = Return model
        /\ model_predict L model X_train = Return y_pred
        /\ accuracy_score L y_train y_pred = Return accuracy
        /\ w_calls w' = w_calls w ++ [CallModelFit X_train; CallModelPredict X_train])
  /\ fs_files (w_fs w') !! parts metrics_p
     = Some (FJson (JObj [("accuracy", JFloat accuracy); ("run_id", JStr rid);
                          ("model_version", JStr rid)]))
  /\ tr_events (w_tracking w')
     = tr_events (w_tracking w)
       ++ [TSetExperiment "music-therapy-model"; TStartRun rid;
           TLogParam rid "n_estimators" n; TLogParam rid "max_depth" d;
           TLogParam rid "random_state" r; TLogMetric rid "train_accuracy" accuracy;
           (if mlflow_sklearn_flavor L
            then TLogModel rid "model" "music-therapy-classifier"
            else TLogArtifact rid "model");
           TEndRun rid true].
Proof.
  intros H. unfold train_model in H.
  do 7 advance H.
  apply with_run_returns in H as (rid0 & w1 & w2 & Hstart & Hbody & Hend).
  apply start_run_returns in Hstart as (_ & Hrid & Hw1). subst rid0 w1.
  repeat advance Hbody.
  unfold ret in Hbody. injection Hbody as Hacc Hrid Hw2. subst.
  read_off Hend.
  cbn [w_tracking w_fs w_calls set_tracking set_fs set_calls tr_next_run tr_events fs_files].
  split; [reflexivity |].
  split.
  { do 5 eexists. repeat (split; [eassumption |]).
    rewrite <- !app_assoc. reflexivity. }
  split; [apply lookup_insert_eq |].
  rewrite <- !app_assoc. reflexivity.
Qed.

Lemma train_model_run_witness :
  exists accuracy,
    fs_files (w_fs (snd (train_model Toy.libs Toy.env_all "data/train.csv" "data/model.pkl"
                           "data/metrics.json" 100 10 42
                           (Toy.world_with_train Toy.tracker_up))))
      !! parts "data/metrics.json"
    = Some (FJson (JObj [("accuracy", JFloat accuracy); ("run_id", JStr "run-0");
                         ("model_version", JStr "run-0")])).
Proof.
  assert (Hreturns : exists accuracy,
             fst (train_model Toy.libs Toy.env_all "data/train.csv" "data/model.pkl"
                    "data/metrics.json" 100 10 42 (Toy.world_with_train Toy.tracker_up))
             = Return (accuracy, "run-0")) by (eexists; vm_compute; reflexivity).
  destruct Hreturns as [accuracy Hreturns].
  destruct (train_model Toy.libs Toy.env_all "data/train.csv" "data/model.pkl"
              "data/metrics.json" 100 10 42 (Toy.world_with_train Toy.tracker_up))
    as [o w'] eqn:Hrun.
  cbn [fst snd] in *. subst o.
  destruct (train_model_run Toy.libs Toy.env_all _ _ _ _ _ _ _ _ _ _ Hrun)
    as (_ & _ & Hfile & _).
  exists accuracy. exact Hfile.
Defined.

(** X14. A run of [evaluate_model] that returns. The file at the model
    path was a pickled model; the two numbers returned are the scores of
    its predictions on the features of the table at the test path, and the
    report file holds those two numbers and the per-class report. The
    metrics went to the server under a run of their own, started for the
    evaluation, not under the run of the training. *)
Theorem evaluate_model_run
    (L : Libs) (env : Env) (test_p model_p evaluation_p : string)
    (w w' : World L) (accuracy precision : float) :
  evaluate_model L env test_p model_p evaluation_p w = (Return (accuracy, precision), w') ->
  exists test_df X_test y_test model y_pred report,
    fs_files (w_fs w) !! parts test_p = Some (FCsv (endswith ".gz" test_p) test_df)
    /\ drop_column test_df "therapy_category" = Return X_test
    /\ get_column test_df "therapy_category" = Return y_test
    /\ fs_files (w_fs w) !! parts model_p = Some (FPickle (PModel L model))
    /\ model_predict L model X_test = Return y_pred
    /\ accuracy_score L y_test y_pred = Return accuracy
    /\ precision_score L y_test y_pred = Return precision
    /\ classification_report L y_test y_pred = Return report
    /\ fs_files (w_fs w') !! parts evaluation_p
       = Some (FJson (JObj [("test_accuracy", JFloat accuracy);
                            ("test_precision", JFloat precision);
                            ("classification_report", report)]))
    /\ w_calls w' = w_calls w ++ [CallModelPredict X_test]
    /\ tr_events (w_tracking w')
       = let rid := run_id_of (tr_next_run (w_tracking w)) in
         tr_events (w_tracking w)
         ++ [TStartRun rid; TLogMetric rid "test_accuracy" accuracy;
             TLogMetric rid "test_precision" precision; TEndRun rid true].
Proof.
  intros H. unfold evaluate_model in H.
  do 7 advance H.
  apply bind_Return_inv in H as (y_pred & w1 & Hpred & H).
  match type of Hpred with
  | context [match ?o with PModel _ _ => _ | _ => _ end] =>
      destruct o as [? ? ? | ? | model]; try discriminate Hpred
  end.
  advance Hpred. read_off Hpred.
  do 2 advance H.
  apply bind_Return_inv in H as (u & w2 & Hrun & H).
  apply with_run_returns in Hrun as (rid0 & w3 & w4 & Hstart & Hbody & Hend).
  apply start_run_returns in Hstart as (_ & Hrid & Hw3). subst rid0 w3.
  advance Hbody. read_off Hbody. read_off Hend.
  repeat advance H.
  unfold ret in H. injection H as Hacc Hprec Hw'. subst.
  cbn [w_tracking w_fs w_calls set_tracking set_fs set_calls tr_next_run tr_events fs_files].
  do 6 eexists. repeat (split; [eassumption |]).
  split; [apply lookup_insert_eq |].
  split; [reflexivity |].
  cbv zeta. rewrite <- !app_assoc. reflexivity.
Qed.

Lemma evaluate_model_run_witness :
  exists accuracy precision report,
    fs_files (w_fs (snd (evaluate_model Toy.libs Toy.env_all "data/train.csv" "data/model.pkl"
                           "data/evaluation.json" world_with_model)))
      !! parts "data/evaluation.json"
    = Some (FJson (JObj [("test_accuracy", JFloat accuracy);
                         ("test_precision", JFloat precision);
                         ("classification_report", report)])).
Proof.
  assert (Hreturns : exists r,
             fst (evaluate_model Toy.libs Toy.env_all "data/train.csv" "data/model.pkl"
                    "data/evaluation.json" world_with_model) = Return r)
    by (eexists; vm_compute; reflexivity).
  destruct Hreturns as [[accuracy precision] Hreturns].
  destruct (evaluate_model Toy.libs Toy.env_all "data/train.csv" "data/model.pkl"
              "data/evaluation.json" world_with_model) as [o w'] eqn:Hrun.
  cbn [fst snd] in *. subst o.
  destruct (evaluate_model_run Toy.libs Toy.env_all _ _ _ _ _ _ _ Hrun)
    as (_ & _ & _ & _ & _ & report & _ & _ & _ & _ & _ & _ & _ & _ & Hfile & _).
  exists accuracy, precision, report. exact Hfile.
Defined.

(** ** The whole run *)







(** ** [setup_mlflow] *)

(** X16. [setup_mlflow] contains every failure of the client. Whatever
    [create_experiment] does: without the MLflow client the function
    returns [False] after one warning, touching nothing else; it raises
    only what is not an [Exception] ([KeyboardInterrupt], [SystemExit]),
    and only out of [create_experiment]; and it returns [True] only when
    the client is there and the server took [set_experiment], which is
    then the last thing the server received. A failing [create_experiment]
    alone does not make it return [False]: the [MlflowException] is read
    as "the experiment exists". *)
Theorem setup_mlflow_contains_failures
    (L : Libs) (env : Env) (uri name : string) (create_experiment : M L unit) (w : World L) :
  (available (DEPENDENCIES env mlflow) = false ->
   setup_mlflow L env uri name create_experiment w
   = (Return false,
      set_log (w_log w ++ [mkLog WARNING (Text "MLflow not available - skipping setup")]) w))
  /\ (forall e w',
        setup_mlflow L env uri name create_experiment w = (Raise e, w') ->
        is_Exception e = false /\ exists w0, create_experiment w0 = (Raise e, w'))
  /\ (forall w',
        setup_mlflow L env uri name create_experiment w = (Return true, w') ->
        available (DEPENDENCIES env mlflow) = true
        /\ tr_up (w_tracking w') = true
        /\ exists before, tr_events (w_tracking w') = before ++ [TSetExperiment name])
  /\ (forall e w1,
        available (DEPENDENCIES env mlflow) = true ->
        create_experiment
          (set_log (w_log w ++ [mkLog INFO (Text ("MLflow tracking URI: " +:+ uri))]) w)
        = (Raise e, w1) ->
        is_MlflowException e = true ->
        tr_up (w_tracking w1) = true ->
        fst (setup_mlflow L env uri name create_experiment w) = Return true).
Proof.
  unfold setup_mlflow. rewrite available_mlflow.
  destruct (env mlflow) as [v |] eqn:Himp; cbn [negb].
  2: { split; [intros _; reflexivity |]. unfold bind, log, ret.
       repeat split; intros; discriminate. }
  split; [discriminate |].
  unfold try_except, bind, import_module, log, ret, tracking_request.
  rewrite Himp. cbv beta iota.
  destruct (create_experiment _) as [[[] | e0] w1] eqn:Hcreate;
    [| destruct (is_MlflowException e0) eqn:Hclass];
    [cbn [w_tracking set_log];
     destruct (tr_up (w_tracking w1)) eqn:Hup
    |cbn [w_tracking set_log];
     destruct (tr_up (w_tracking w1)) eqn:Hup
    |destruct (is_Exception e0) eqn:Hexc];
    cbn [is_Exception exc_class];
    (split; [| split]); intros;
    repeat match goal with
           | H : (_, _) = (_, _) |- _ => inversion H; subst; clear H
           end;
    try discriminate; try congruence;
    cbn [w_tracking set_tracking set_log tr_up tr_events fst] in *;
    try congruence; eauto 6.
Qed.
